(** * PVwatcher: the status-aggregation engine of [monitor_ioc.py]

    A shallow embedding of the monitor IOC: the values the channel-access
    client hands to the IOC, the per-target control points, the table of last
    known values, the recompute of [SUMMARY_STATUS] ([_update_summary]) and
    the coroutines that call it (start-up, subscription loop, putters).

    Python data is kept as Python has it: a value is [None], a [bool], an
    [int], a [float] (IEEE 754 binary64, here [spec_float]), a [str], [bytes],
    a [list] or a [tuple].  A coroutine is a function of the group state that
    may raise; what it does between two [await]s is one uninterrupted step of
    the asyncio loop. *)

From Stdlib Require Import ZArith Lia Ascii String.
From Stdlib Require Import SpecFloat.
From stdpp Require Import gmap strings list pretty.

Local Open Scope Z_scope.

(** ** Python values *)

#[warnings="-register-all"]
Inductive pyval : Type :=
  | PNone
  | PBool (b : bool)
  | PInt (n : Z)
  | PFloat (f : spec_float)
  | PStr (s : string)
  | PBytes (bs : list Z)
  | PList (xs : list pyval)
  | PTuple (xs : list pyval).

Inductive exn : Type :=
  | TypeError
  | IndexError
  | ConnectionError.

(** Outcome of an expression or of a call: a value, or a raised exception. *)
Inductive res (A : Type) : Type :=
  | Ok (a : A)
  | Raise (e : exn).
Arguments Ok {A} a.
Arguments Raise {A} e.

Definition is_none (v : pyval) : bool :=
  match v with PNone => true | _ => false end.

(** [hasattr(val, '__iter__')] on the built-in types. *)
Definition has_iter (val : pyval) : bool :=
  match val with
  | PStr _ | PBytes _ | PList _ | PTuple _ => true
  | PNone | PBool _ | PInt _ | PFloat _ => false
  end.

(** [isinstance(val, str)]. *)
Definition isinstance_str (val : pyval) : bool :=
  match val with PStr _ => true | _ => false end.

(** [val[0]]: the first item, [IndexError] on an empty sequence, [TypeError]
    on a value that cannot be subscripted. *)
Definition getitem0 (val : pyval) : res pyval :=
  match val with
  | PList (x :: _) | PTuple (x :: _) => Ok x
  | PBytes (b :: _) => Ok (PInt b)
  | PStr (String c _) => Ok (PStr (String c EmptyString))
  | PList [] | PTuple [] | PBytes [] | PStr EmptyString => Raise IndexError
  | PNone | PBool _ | PInt _ | PFloat _ => Raise TypeError
  end.

(** The scalar extraction that start-up (lines 96-103) and the subscription
    loop (lines 137-144) both apply to [response.data]:
<<
    try:
        if hasattr(val, '__iter__') and not isinstance(val, str):
            v = val[0]
        else:
            v = val
    except Exception:
        v = val
>> *)
Definition extract_scalar (val : pyval) : pyval :=
  match (if has_iter val && negb (isinstance_str val)
         then getitem0 val else Ok val) with
  | Ok v => v
  | Raise _ => val
  end.

(** ** Ordering comparisons against a [DOUBLE] limit *)

(** Python compares an [int] with a [float] exactly (no rounding of the
    integer); a NaN is unordered. *)
Definition Z_SFcompare (n : Z) (f : spec_float) : option comparison :=
  match f with
  | S754_nan => None
  | S754_infinity s => Some (if s then Gt else Lt)
  | S754_zero _ => Some (n ?= 0)
  | S754_finite s m e =>
      let v := cond_Zopp s (Zpos m) in
      Some (if 0 <=? e then n ?= v * 2 ^ e else n * 2 ^ (- e) ?= v)
  end.

(** How a stored value compares with a limit: [Raise TypeError] when Python
    has no ordering between the two types, [Ok None] when a NaN is involved. *)
Definition py_compare (v : pyval) (limit : spec_float) : res (option comparison) :=
  match v with
  | PFloat x => Ok (SFcompare x limit)
  | PInt n => Ok (Z_SFcompare n limit)
  | PBool b => Ok (Z_SFcompare (Z.b2z b) limit)
  | PNone | PStr _ | PBytes _ | PList _ | PTuple _ => Raise TypeError
  end.

Definition res_map {A B} (f : A → B) (r : res A) : res B :=
  match r with Ok a => Ok (f a) | Raise e => Raise e end.

(** [v < limit], [v > limit], [v <= limit], [v >= limit]. *)
Definition py_lt (v : pyval) (limit : spec_float) : res bool :=
  res_map (λ c, match c with Some Lt => true | _ => false end) (py_compare v limit).
Definition py_gt (v : pyval) (limit : spec_float) : res bool :=
  res_map (λ c, match c with Some Gt => true | _ => false end) (py_compare v limit).
Definition py_le (v : pyval) (limit : spec_float) : res bool :=
  res_map (λ c, match c with Some Lt | Some Eq => true | _ => false end) (py_compare v limit).
Definition py_ge (v : pyval) (limit : spec_float) : res bool :=
  res_map (λ c, match c with Some Gt | Some Eq => true | _ => false end) (py_compare v limit).

(** ** The group state *)

(** [target.replace(':', '_')]. *)
Fixpoint replace_colon (s : string) : string :=
  match s with
  | EmptyString => EmptyString
  | String c rest =>
      String (if Ascii.eqb c ":"%char then "_"%char else c) (replace_colon rest)
  end.

(** The three properties [<suffix>_enable] (INT), [<suffix>_low] and
    [<suffix>_high] (DOUBLE) that lines 212-228 create together. *)
Record control : Type := {
  enable : Z;
  low : spec_float;
  high : spec_float;
}.

(** 100.0 as a binary64 float. *)
Definition SF100 : spec_float := S754_finite false 7036874417766400 (-46).

Definition default_control : control :=
  {| enable := 1; low := S754_zero false; high := SF100 |}.

(** What the logger is given, one constructor per call in the source. *)
Inductive log_entry : Type :=
  | InfoMasterEnableChanged (value : Z)
  | InfoStartingClient
  | InfoConnecting (targets : list string)
  | ErrorFailedGetPVs
  | InfoSubscribing (name : string)
  | ErrorFailedInitialRead (name : string)
  | InfoStartingLoop (name : string)
  | ErrorMonitorLoopFailed (name : string)
  | InfoMasterDisabled
  | InfoAlarm (target : string) (val : pyval) (lo hi : spec_float)
  | InfoUpdatingSummary (new_status : Z)
  | InfoGenericPutter (name : string) (value : pyval).

(** A client handle as [get_pvs] returns it: its name, what [await pv.read()]
    does at start-up, and the responses [pv.subscribe] will deliver, after
    which the subscription either stays silent or fails. *)
Record pv : Type := {
  pv_name : string;
  pv_read : res pyval;
  pv_responses : list pyval;
  pv_sub_fails : bool;
}.

(** One [DynamicMonitorIOC] instance, with what the asyncio loop holds for it.
    [controls] is keyed by the attribute suffix, so two targets that differ
    only in [':'] against ['_'] share one entry, as they share one attribute
    in [class_dict].  (A target named exactly [master] shares in the same
    way the attribute [master_enable] with the master switch; the state keeps
    the two cells, and a write to that target's ENABLE sets both.)
    [monitor_tasks] names the target of each task in [_monitor_tasks].
    [loop_time] is the loop clock in milliseconds and [sleeping] holds, for
    every [check_after] task inside [asyncio.sleep], the time it wakes up.
    [published] records the calls of [summary_status.write] and
    [update_calls] counts the entries into [_update_summary]; these two are
    observers, nothing reads them. *)
Record ioc : Type := {
  target_pvs_list : list string;
  master_enable : Z;
  summary_status : Z;
  controls : gmap string control;
  target_values : gmap string pyval;
  monitored_pvs : list pv;
  monitor_tasks : list string;
  loop_time : nat;
  sleeping : list nat;
  log : list log_entry;
  published : list Z;
  update_calls : nat;
}.

Definition set_master_enable (v : Z) (g : ioc) : ioc :=
  {| target_pvs_list := target_pvs_list g; master_enable := v;
     summary_status := summary_status g; controls := controls g;
     target_values := target_values g; monitored_pvs := monitored_pvs g;
     monitor_tasks := monitor_tasks g; loop_time := loop_time g;
     sleeping := sleeping g; log := log g;
     published := published g; update_calls := update_calls g |}.

Definition set_controls (cs : gmap string control) (g : ioc) : ioc :=
  {| target_pvs_list := target_pvs_list g; master_enable := master_enable g;
     summary_status := summary_status g; controls := cs;
     target_values := target_values g; monitored_pvs := monitored_pvs g;
     monitor_tasks := monitor_tasks g; loop_time := loop_time g;
     sleeping := sleeping g; log := log g;
     published := published g; update_calls := update_calls g |}.

Definition set_target_values (tv : gmap string pyval) (g : ioc) : ioc :=
  {| target_pvs_list := target_pvs_list g; master_enable := master_enable g;
     summary_status := summary_status g; controls := controls g;
     target_values := tv; monitored_pvs := monitored_pvs g;
     monitor_tasks := monitor_tasks g; loop_time := loop_time g;
     sleeping := sleeping g; log := log g;
     published := published g; update_calls := update_calls g |}.

Definition set_monitored_pvs (pvs : list pv) (g : ioc) : ioc :=
  {| target_pvs_list := target_pvs_list g; master_enable := master_enable g;
     summary_status := summary_status g; controls := controls g;
     target_values := target_values g; monitored_pvs := pvs;
     monitor_tasks := monitor_tasks g; loop_time := loop_time g;
     sleeping := sleeping g; log := log g;
     published := published g; update_calls := update_calls g |}.

Definition set_target_pvs_list (targets : list string) (g : ioc) : ioc :=
  {| target_pvs_list := targets; master_enable := master_enable g;
     summary_status := summary_status g; controls := controls g;
     target_values := target_values g; monitored_pvs := monitored_pvs g;
     monitor_tasks := monitor_tasks g; loop_time := loop_time g;
     sleeping := sleeping g; log := log g;
     published := published g; update_calls := update_calls g |}.

(** [self._monitor_tasks.append(task)] *)
Definition add_task (name : string) (g : ioc) : ioc :=
  {| target_pvs_list := target_pvs_list g; master_enable := master_enable g;
     summary_status := summary_status g; controls := controls g;
     target_values := target_values g; monitored_pvs := monitored_pvs g;
     monitor_tasks := monitor_tasks g ++ [name]; loop_time := loop_time g;
     sleeping := sleeping g; log := log g;
     published := published g; update_calls := update_calls g |}.

Definition add_log (e : log_entry) (g : ioc) : ioc :=
  {| target_pvs_list := target_pvs_list g; master_enable := master_enable g;
     summary_status := summary_status g; controls := controls g;
     target_values := target_values g; monitored_pvs := monitored_pvs g;
     monitor_tasks := monitor_tasks g; loop_time := loop_time g;
     sleeping := sleeping g; log := log g ++ [e];
     published := published g; update_calls := update_calls g |}.

Definition set_loop (t : nat) (sl : list nat) (g : ioc) : ioc :=
  {| target_pvs_list := target_pvs_list g; master_enable := master_enable g;
     summary_status := summary_status g; controls := controls g;
     target_values := target_values g; monitored_pvs := monitored_pvs g;
     monitor_tasks := monitor_tasks g; loop_time := t;
     sleeping := sl; log := log g;
     published := published g; update_calls := update_calls g |}.

(** [await self.summary_status.write(v)]: the value is stored and published. *)
Definition summary_status_write (v : Z) (g : ioc) : ioc :=
  {| target_pvs_list := target_pvs_list g; master_enable := master_enable g;
     summary_status := v; controls := controls g;
     target_values := target_values g; monitored_pvs := monitored_pvs g;
     monitor_tasks := monitor_tasks g; loop_time := loop_time g;
     sleeping := sleeping g; log := log g;
     published := published g ++ [v]; update_calls := update_calls g |}.

Definition count_update_call (g : ioc) : ioc :=
  {| target_pvs_list := target_pvs_list g; master_enable := master_enable g;
     summary_status := summary_status g; controls := controls g;
     target_values := target_values g; monitored_pvs := monitored_pvs g;
     monitor_tasks := monitor_tasks g; loop_time := loop_time g;
     sleeping := sleeping g; log := log g;
     published := published g; update_calls := S (update_calls g) |}.

(** [self.target_values.get(target)]: [None] for a missing key. *)
Definition target_values_get (g : ioc) (target : string) : pyval :=
  default PNone (target_values g !! target).

(** [self.target_values[name] = v]. *)
Definition target_values_set (name : string) (v : pyval) (g : ioc) : ioc :=
  set_target_values (<[name := v]> (target_values g)) g.

(** ** Coroutines: state passing with exceptions *)

(** A coroutine of the group takes the state to its result, a value or a
    raised exception, and to the state it leaves; what was written before an
    exception stays written. *)
Definition M (A : Type) : Type := ioc → res A * ioc.

Definition ret {A} (a : A) : M A := λ g, (Ok a, g).
Definition bind {A B} (k : A → M B) (m : M A) : M B :=
  λ g, match m g with
       | (Ok a, g') => k a g'
       | (Raise e, g') => (Raise e, g')
       end.
Definition get : M ioc := λ g, (Ok g, g).
Definition modify (f : ioc → ioc) : M unit := λ g, (Ok tt, f g).
Definition lift {A} (r : res A) : M A := λ g, (r, g).

#[export] Instance M_ret : MRet M := @ret.
#[export] Instance M_bind : MBind M := @bind.

Definition logger (e : log_entry) : M unit := modify (add_log e).

(** The body of [for target in self.target_pvs_list] (lines 168-188); the
    result is [all_ok] when the loop is left.  [None] from the lookup is the
    [continue] of line 172, [ret false] after the alarm is the [break]. *)
Fixpoint check_targets (targets : list string) : M bool :=
  match targets with
  | [] => ret true
  | target :: rest =>
      g ← get;
      let attr_suffix := replace_colon target in
      match controls g !! attr_suffix with
      | None => check_targets rest
      | Some c =>
          let is_enabled := enable c in
          let low_limit := low c in
          let high_limit := high c in
          let current_value := target_values_get g target in
          if negb (is_enabled =? 0) && negb (is_none current_value) then
            below ← lift (py_lt current_value low_limit);
            above ← (if below : bool then ret true
                     else lift (py_gt current_value high_limit));
            if above : bool then
              logger (InfoAlarm target current_value low_limit high_limit);;
              ret false
            else check_targets rest
          else check_targets rest
      end
  end.

(** [_update_summary] (lines 154-193).  The first step counts the call and
    is not in the source. *)
Definition _update_summary (master_enable_override : option Z) : M unit :=
  modify count_update_call;;
  g ← get;
  let master := match master_enable_override with
                | None => master_enable g
                | Some v => v
                end in
  if master =? 0 then
    if negb (summary_status g =? 1) then
      logger InfoMasterDisabled;;
      modify (summary_status_write 1)
    else ret tt
  else
    all_ok ← check_targets (target_pvs_list g);
    let new_status := if all_ok : bool then 1 else 0 in
    g' ← get;
    if negb (summary_status g' =? new_status) then
      logger (InfoUpdatingSummary new_status);;
      modify (summary_status_write new_status)
    else ret tt.

(** ** Construction *)

(** [create_monitor_ioc_class target_pvs] followed by the instantiation of
    the class: every property has its declared initial value, and [__init__]
    sets [target_values = {t: None for t in target_pvs}]. *)
Definition create_monitor_ioc_class (target_pvs : list string) : ioc :=
  {| target_pvs_list := target_pvs;
     master_enable := 1;
     summary_status := 1;
     controls := foldl (λ class_dict target,
                          <[replace_colon target := default_control]> class_dict)
                       ∅ target_pvs;
     target_values := foldl (λ d t, <[t := PNone]> d) ∅ target_pvs;
     monitored_pvs := [];
     monitor_tasks := [];
     loop_time := 0%nat;
     sleeping := [];
     log := [];
     published := [];
     update_calls := 0%nat |}.

(** ** The master switch *)

(** [master_enable_putter] (lines 68-71). *)
Definition master_enable_putter (value : Z) : M Z :=
  logger (InfoMasterEnableChanged value);;
  _update_summary (Some value);;
  ret value.

(** A channel-access write to [MONITOR:MASTER_ENABLE]: the server runs the
    putter and stores what it returns; when the putter raises, the write is
    refused and the property keeps its value. *)
Definition write_master_enable (value : Z) : M unit :=
  v ← master_enable_putter value;
  modify (set_master_enable v).

(** ** Per-target control points *)

Inductive field : Type := ENABLE | LOW | HIGH.

(** The value of a write, by the type of the property written. *)
Inductive field_value : Type :=
  | VEnable (v : Z)
  | VLow (f : spec_float)
  | VHigh (f : spec_float).

Definition field_of (w : field_value) : field :=
  match w with VEnable _ => ENABLE | VLow _ => LOW | VHigh _ => HIGH end.

Definition pyval_of (w : field_value) : pyval :=
  match w with VEnable v => PInt v | VLow f | VHigh f => PFloat f end.

(** [asyncio.sleep(0.01)], in milliseconds. *)
Definition check_delay : nat := 10%nat.

(** [asyncio.ensure_future(check_after())]: one more task, which sleeps
    [check_delay] and then awaits [_update_summary].  The task is taken to
    go to sleep at the time of the write that created it. *)
Definition ensure_future_check_after (g : ioc) : ioc :=
  set_loop (loop_time g) (sleeping g ++ [(loop_time g + check_delay)%nat]) g.

(** [generic_putter] (lines 201-210); [instance] is the name of the written
    property. *)
Definition generic_putter (instance : string) (value : pyval) : M pyval :=
  logger (InfoGenericPutter instance value);;
  modify ensure_future_check_after;;
  ret value.

Definition store_field (w : field_value) (c : control) : control :=
  match w with
  | VEnable v => {| enable := v; low := low c; high := high c |}
  | VLow f => {| enable := enable c; low := f; high := high c |}
  | VHigh f => {| enable := enable c; low := low c; high := f |}
  end.

Definition field_suffix (fd : field) : string :=
  match fd with ENABLE => ":ENABLE" | LOW => ":LOW" | HIGH => ":HIGH" end.

(** The value the putter handed back, read as the content of the property
    of that field: an [int] for the INT property, a [float] for the DOUBLE
    ones.  [generic_putter] hands back what was written, so no other case
    arises from it. *)
Definition field_value_of (fd : field) (returned : pyval) : option field_value :=
  match fd, returned with
  | ENABLE, PInt v => Some (VEnable v)
  | LOW, PFloat f => Some (VLow f)
  | HIGH, PFloat f => Some (VHigh f)
  | _, _ => None
  end.

(** The server stores a value in the property [<suffix>_enable], [_low] or
    [_high] of [target].  For a target named [master] the attribute
    [master_enable] is that target's ENABLE property (line 218 overwrites
    the entry of line 121), so the value is the master switch as well. *)
Definition store_returned (target : string) (stored : field_value) (g : ioc) : ioc :=
  let g' := set_controls (alter (store_field stored) (replace_colon target) (controls g)) g in
  match stored with
  | VEnable v =>
      if String.eqb (replace_colon target) "master" then set_master_enable v g' else g'
  | VLow _ | VHigh _ => g'
  end.

(** The server handles a write that has reached the ENABLE, LOW or HIGH
    property created for [target] (lines 212-228): the putter runs, then the
    server stores what the putter returned.  Whether a channel of that name
    exists at all is another matter, see [ca_write]. *)
Definition write_field (target : string) (w : field_value) : M unit :=
  returned ← generic_putter (target ++ field_suffix (field_of w)) (pyval_of w);
  match field_value_of (field_of w) returned with
  | Some stored => modify (store_returned target stored)
  | None => lift (Raise TypeError)
  end.

(** The loop clock reaches [t]: every [check_after] task whose sleep is over
    by then resumes, in the order the tasks went to sleep, and awaits
    [_update_summary]; an exception raised there ends that task only. *)
Definition wake_check_after (g : ioc) : ioc := snd (_update_summary None g).

Definition run_until (t : nat) (g : ioc) : ioc :=
  let due := filter (λ d, (d ≤ t)%nat) (sleeping g) in
  let later := filter (λ d, ¬ (d ≤ t)%nat) (sleeping g) in
  foldl (λ g' _, wake_check_after g') (set_loop (t `max` loop_time g)%nat later g) due.

(** ** Start-up and the subscription loops *)

(** [try: ... except Exception as e: handler]. *)
Definition try_except {A} (body : M A) (handler : exn → M A) : M A :=
  λ g, match body g with
       | (Ok a, g') => (Ok a, g')
       | (Raise e, g') => handler e g'
       end.

(** One response of the subscription, the body of [async for] in
    [_monitor_loop] (lines 137-148). *)
Definition monitor_response (name : string) (val : pyval) : M unit :=
  let v := extract_scalar val in
  modify (target_values_set name v);;
  _update_summary None.

Fixpoint monitor_responses (name : string) (responses : list pyval) : M unit :=
  match responses with
  | [] => ret tt
  | val :: rest => monitor_response name val;; monitor_responses name rest
  end.

(** [_monitor_loop] (lines 130-150), run over the responses the subscription
    delivers. *)
Definition _monitor_loop (p : pv) : M unit :=
  logger (InfoStartingLoop (pv_name p));;
  try_except
    (monitor_responses (pv_name p) (pv_responses p);;
     if pv_sub_fails p then lift (Raise ConnectionError) else ret tt)
    (λ _, logger (ErrorMonitorLoopFailed (pv_name p))).

(** The body of [for pv in pvs] in [master_enable_startup] (lines 89-115). *)
Definition startup_pv (p : pv) : M unit :=
  logger (InfoSubscribing (pv_name p));;
  match pv_read p with
  | Ok val =>
      let v := extract_scalar val in
      modify (target_values_set (pv_name p) v)
  | Raise _ => logger (ErrorFailedInitialRead (pv_name p))
  end;;
  modify (add_task (pv_name p));;
  _update_summary None.

Fixpoint startup_pvs (pvs : list pv) : M unit :=
  match pvs with
  | [] => ret tt
  | p :: rest => startup_pv p;; startup_pvs rest
  end.

(** [master_enable_startup] (lines 73-115); [get_pvs] is the client call
    [self.client_context.get_pvs]. *)
Definition master_enable_startup (get_pvs : list string → res (list pv)) : M unit :=
  logger InfoStartingClient;;
  g ← get;
  logger (InfoConnecting (target_pvs_list g));;
  match get_pvs (target_pvs_list g) with
  | Raise _ => logger ErrorFailedGetPVs
  | Ok pvs =>
      modify (set_monitored_pvs pvs);;
      startup_pvs pvs
  end.

(** ** The notions the properties are stated with *)

(** A target takes part in the evaluation when its properties exist, its
    enable flag is set and its value is known; then its control and its
    value. *)
Definition evaluated (g : ioc) (target : string) : option (control * pyval) :=
  c ← controls g !! replace_colon target;
  let v := target_values_get g target in
  if negb (enable c =? 0) && negb (is_none v) then Some (c, v) else None.

(** [value < low or value > high], with Python's left-to-right evaluation. *)
Definition out_of_limits (c : control) (v : pyval) : res bool :=
  match py_lt v (low c) with
  | Ok true => Ok true
  | Ok false => py_gt v (high c)
  | Raise e => Raise e
  end.

(** [low <= value <= high]. *)
Definition in_bounds (c : control) (v : pyval) : Prop :=
  py_ge v (low c) = Ok true ∧ py_le v (high c) = Ok true.

(** Value and limits can be ordered: the value is a number and no NaN is
    among the three. *)
Definition ordered (c : control) (v : pyval) : bool :=
  match py_compare v (low c), py_compare v (high c) with
  | Ok (Some _), Ok (Some _) => true
  | _, _ => false
  end.

(** Does the loop body raise the alarm on this target? *)
Definition target_alarm (g : ioc) (target : string) : res bool :=
  match evaluated g target with
  | None => Ok false
  | Some (c, v) => out_of_limits c v
  end.

(** The first target in the list on which the alarm is raised, if the
    targets before it can all be compared. *)
Fixpoint first_alarm (g : ioc) (targets : list string) : res (option string) :=
  match targets with
  | [] => Ok None
  | target :: rest =>
      match target_alarm g target with
      | Raise e => Raise e
      | Ok true => Ok (Some target)
      | Ok false => first_alarm g rest
      end
  end.

Definition alarm_entry (g : ioc) (target : string) : log_entry :=
  let c := default default_control (controls g !! replace_colon target) in
  InfoAlarm target (target_values_get g target) (low c) (high c).

Definition effective_master (master_enable_override : option Z) (g : ioc) : Z :=
  match master_enable_override with
  | None => master_enable g
  | Some v => v
  end.

(** The status the recompute arrives at, before it decides whether to write. *)
Definition computed_status (master_enable_override : option Z) (g : ioc) : res Z :=
  if effective_master master_enable_override g =? 0 then Ok 1
  else res_map (λ a, match a with None => 1 | Some _ => 0 end)
               (first_alarm g (target_pvs_list g)).

Definition is_number (v : pyval) : bool :=
  match v with PBool _ | PInt _ | PFloat _ => true | _ => false end.

(** Every listed target has no value yet or holds a number. *)
Definition numeric_registry (g : ioc) : bool :=
  forallb (λ target, let v := target_values_get g target in is_none v || is_number v)
          (target_pvs_list g).

(** The target has no properties, or its enable flag is 0. *)
Definition disabled (g : ioc) (target : string) : bool :=
  match controls g !! replace_colon target with
  | Some c => enable c =? 0
  | None => true
  end.

(** What a recompute lets the outside see: whether it raised, the status and
    the writes to it. *)
Definition outcome (r : res unit * ioc) : res unit * Z * list Z :=
  (fst r, summary_status (snd r), published (snd r)).

(** Python's sequence types among the values. *)
Definition is_sequence (val : pyval) : bool :=
  match val with
  | PStr _ | PBytes _ | PList _ | PTuple _ => true
  | _ => false
  end.

(** An empty sequence that is not a string. *)
Definition empty_sequence (val : pyval) : bool :=
  match val with
  | PList [] | PTuple [] | PBytes [] => true
  | _ => false
  end.

(** The state a recompute ends in, given the status it computed. *)
Definition settle (new_status : Z) (entry : log_entry) (g : ioc) : ioc :=
  if summary_status g =? new_status then g
  else summary_status_write new_status (add_log entry g).

(** Several writes to control points, one after the other, with no other
    task running in between. *)
Fixpoint write_fields (writes : list (string * field_value)) : M unit :=
  match writes with
  | [] => ret tt
  | (target, w) :: rest => write_field target w;; write_fields rest
  end.

(** *** The full scan

    The loop of [_update_summary] without its [break]: every target is
    visited and [all_ok] is cleared at each alarm. *)
Fixpoint check_targets_full_scan (targets : list string) (all_ok : bool) : M bool :=
  match targets with
  | [] => ret all_ok
  | target :: rest =>
      g ← get;
      let attr_suffix := replace_colon target in
      match controls g !! attr_suffix with
      | None => check_targets_full_scan rest all_ok
      | Some c =>
          let current_value := target_values_get g target in
          if negb (enable c =? 0) && negb (is_none current_value) then
            below ← lift (py_lt current_value (low c));
            above ← (if below : bool then ret true
                     else lift (py_gt current_value (high c)));
            if above : bool then
              logger (InfoAlarm target current_value (low c) (high c));;
              check_targets_full_scan rest false
            else check_targets_full_scan rest all_ok
          else check_targets_full_scan rest all_ok
      end
  end.

Definition _update_summary_full_scan (master_enable_override : option Z) : M unit :=
  modify count_update_call;;
  g ← get;
  if effective_master master_enable_override g =? 0 then
    if negb (summary_status g =? 1) then
      logger InfoMasterDisabled;;
      modify (summary_status_write 1)
    else ret tt
  else
    all_ok ← check_targets_full_scan (target_pvs_list g) true;
    let new_status := if all_ok : bool then 1 else 0 in
    g' ← get;
    if negb (summary_status g' =? new_status) then
      logger (InfoUpdatingSummary new_status);;
      modify (summary_status_write new_status)
    else ret tt.

Definition in_alarm (g : ioc) (target : string) : bool :=
  match target_alarm g target with Ok true => true | _ => false end.

(** The targets in alarm, all of them. *)
Definition violations (g : ioc) : list string :=
  filter (λ target, in_alarm g target = true) (target_pvs_list g).
(** What a scan of the targets leaves as it found it. *)
Definition scan_frame (g g1 : ioc) : Prop :=
  target_pvs_list g1 = target_pvs_list g
  ∧ controls g1 = controls g
  ∧ target_values g1 = target_values g
  ∧ summary_status g1 = summary_status g
  ∧ published g1 = published g.

(** Two states with the same registry: targets, master switch, controls and
    values. *)
Definition same_registry (g1 g2 : ioc) : Prop :=
  target_pvs_list g1 = target_pvs_list g2
  ∧ master_enable g1 = master_enable g2
  ∧ controls g1 = controls g2
  ∧ target_values g1 = target_values g2.

(** What the loop goes through while control points are written: the clock
    reaches a time, or a write reaches the ENABLE, LOW or HIGH property
    created for a target and its putter runs. *)
Inductive loop_event : Type :=
  | Advance (t : nat)
  | Write (target : string) (w : field_value).

Definition run_event (ev : loop_event) (g : ioc) : ioc :=
  match ev with
  | Advance t => run_until t g
  | Write target w => snd (write_field target w g)
  end.

Definition run_events (evs : list loop_event) (g : ioc) : ioc :=
  foldl (λ g' ev, run_event ev g') g evs.

Definition is_write (ev : loop_event) : bool :=
  match ev with Write _ _ => true | Advance _ => false end.

Definition count_writes (evs : list loop_event) : nat :=
  length (List.filter is_write evs).

(** The event happens before the clock reaches [deadline]. *)
Definition before (deadline : nat) (ev : loop_event) : Prop :=
  match ev with Advance t => (t < deadline)%nat | Write _ _ => True end.

(** ** Concrete registries *)

Definition SF5 : spec_float := S754_finite false 5629499534213120 (-50).
Definition SF15 : spec_float := S754_finite false 8444249301319680 (-49).

(** Two targets with the default limits 0.0 and 100.0, nothing read yet. *)
Definition two_targets : ioc := create_monitor_ioc_class ["T1"; "T2"]%string.

(** [T1] holds 5.0 and [T2] holds 150. *)
Definition one_violation : ioc :=
  target_values_set "T2" (PInt 150) (target_values_set "T1" (PFloat SF5) two_targets).

(** Both targets hold 150. *)
Definition two_violations : ioc :=
  target_values_set "T2" (PInt 150) (target_values_set "T1" (PInt 150) two_targets).

(** [T1] holds a NaN. *)
Definition nan_reading : ioc :=
  target_values_set "T1" (PFloat S754_nan) two_targets.

(** The master switch is off while [T2] is out of its limits and the status
    still shows the alarm. *)
Definition master_off : ioc :=
  set_master_enable 0 (snd (_update_summary None one_violation)).

(** [T2] is out of its limits but disabled. *)
Definition t2_disabled : ioc :=
  set_controls (alter (store_field (VEnable 0)) "T2"%string (controls one_violation))
               one_violation.

(** [T2] is disabled and holds a text. *)
Definition text_on_disabled : ioc := target_values_set "T2" (PStr "abc") t2_disabled.

(** A client whose connection fails. *)
Definition get_pvs_fails : list string → res (list pv) :=
  λ _, Raise ConnectionError.

(** A handle whose first read fails and whose subscription later delivers
    150. *)
Definition late_pv : pv :=
  {| pv_name := "T1"; pv_read := Raise ConnectionError;
     pv_responses := [PList [PInt 150]]; pv_sub_fails := false |}.

(** A handle whose first read delivers an empty array. *)
Definition empty_pv : pv :=
  {| pv_name := "T1"; pv_read := Ok (PList []);
     pv_responses := []; pv_sub_fails := false |}.

(** Low and High of [T1] written together. *)
Definition low_and_high : list (string * field_value) :=
  [("T1"%string, VLow SF5); ("T1"%string, VHigh SF15)].

(** Low of [T1] written, and High three milliseconds later. *)
Definition low_then_high : list loop_event :=
  [Write "T1" (VLow SF5); Advance 3; Write "T1" (VHigh SF15)].

(** *** The scenarios of the specification

    Two targets with limits 0 to 10; both at 5 (A), then [T2] at 15 (B), then
    the master switch written to 0 (C), or [T2] disabled and the deferred
    recompute run (D); and (E) [T2] never read while [T1] is at 5. *)
Definition SF10 : spec_float := S754_finite false 5629499534213120 (-49).

Definition after {A} (m : M A) (g : ioc) : ioc := snd (m g).

Definition limits_0_10 : ioc :=
  run_until 10
    (after (write_fields [("T1"%string, VHigh SF10); ("T2"%string, VHigh SF10)])
           two_targets).

Definition scenario_A : ioc :=
  after (monitor_response "T2" (PList [PFloat SF5]))
        (after (monitor_response "T1" (PList [PFloat SF5])) limits_0_10).

Definition scenario_B : ioc :=
  after (monitor_response "T2" (PList [PFloat SF15])) scenario_A.

Definition scenario_C : ioc := after (write_master_enable 0) scenario_B.

Definition scenario_D : ioc :=
  run_until 20 (after (write_field "T2" (VEnable 0)) scenario_B).

Definition scenario_E : ioc :=
  after (monitor_response "T1" (PList [PFloat SF5])) limits_0_10.

(** ** Further notions *)

(** Does the name contain a [':']? *)
Fixpoint has_colon (s : string) : bool :=
  match s with
  | EmptyString => false
  | String c rest => Ascii.eqb c ":"%char || has_colon rest
  end.

(** The payload leaves a number, or nothing, as the stored value. *)
Definition numeric_payload (val : pyval) : bool :=
  is_none (extract_scalar val) || is_number (extract_scalar val).

(** What [await pv.read()] gives is a failure or a numeric payload. *)
Definition numeric_read (p : pv) : bool :=
  match pv_read p with
  | Ok val => numeric_payload val
  | Raise _ => true
  end.

Definition is_ok {A} (r : res A) : bool :=
  match r with Ok _ => true | Raise _ => false end.

(** A handle that reads 5 and then delivers 5.0 and 150. *)
Definition lively_pv : pv :=
  {| pv_name := "T2"; pv_read := Ok (PList [PInt 5]);
     pv_responses := [PList [PFloat SF5]; PList [PInt 150]]; pv_sub_fails := false |}.

(** A handle of a text channel: its first read delivers a text. *)
Definition text_pv : pv :=
  {| pv_name := "T1"; pv_read := Ok (PList [PBytes [97; 98; 99]]);
     pv_responses := []; pv_sub_fails := false |}.

(** ** The configuration file and the start of the program *)

(** A document as [yaml.safe_load] returns it, as far as the two programs
    look into it: scalars, sequences of scalars, and mappings with text
    keys, whose entries are in the order of the file and have distinct
    keys.  (Floating-point scalars and sequences of sequences are left
    out.) *)
Inductive scalar : Type :=
  | SNull
  | SBool (b : bool)
  | SInt (n : Z)
  | SStr (s : string).

#[warnings="-register-all"]
Inductive yaml : Type :=
  | YScalar (v : scalar)
  | YSeq (items : list scalar)
  | YMap (entries : list (string * yaml)).

(** What [open] followed by [yaml.safe_load] comes to: a document, or an
    exception of either. *)
Inductive parsed : Type :=
  | Document (doc : yaml)
  | Unreadable.

(** [d.get(key, default)] on a dict. *)
Fixpoint dict_get (entries : list (string * yaml)) (key : string) (default : yaml) : yaml :=
  match entries with
  | [] => default
  | (k, v) :: rest => if String.eqb k key then v else dict_get rest key default
  end.

(** How [load_config] ends: it returns a value, or it leaves the process
    through [sys.exit]. *)
Inductive loaded : Type :=
  | Returns (target_pvs : yaml)
  | SysExit (status : Z).

(** [load_config] (lines 26-34).  Only a mapping has [get]; on any other
    document the [AttributeError] is caught by the same handler as a failure
    to open or to parse, which logs and exits with status 1. *)
Definition load_config (file : parsed) : loaded :=
  match file with
  | Document (YMap config) => Returns (dict_get config "target_pvs" (YSeq []))
  | Document (YScalar _) | Document (YSeq _) => SysExit 1
  | Unreadable => SysExit 1
  end.

(** The characters of a text, as [for c in text] yields them. *)
Fixpoint chars (s : string) : list string :=
  match s with
  | EmptyString => []
  | String c rest => String c EmptyString :: chars rest
  end.

(** [for x in v]: the items of a sequence, the characters of a text, the
    keys of a mapping; [None] when [v] is not iterable ([TypeError]). *)
Definition py_iter (v : yaml) : option (list scalar) :=
  match v with
  | YSeq items => Some items
  | YScalar (SStr s) => Some (SStr <$> chars s)
  | YMap entries => Some (SStr <$> entries.*1)
  | YScalar SNull | YScalar (SBool _) | YScalar (SInt _) => None
  end.

(** The items as target names; [None] when one of them is not a text and
    [target.replace] fails ([AttributeError]). *)
Fixpoint names_of (items : list scalar) : option (list string) :=
  match items with
  | [] => Some []
  | SStr s :: rest => (s ::.) <$> names_of rest
  | _ :: _ => None
  end.

Inductive py_exn : Type :=
  | NotIterable
  | NoAttribute
  | ReadError.

(** How the program gets to the point where it serves. *)
Inductive started : Type :=
  | Serving (g : ioc)
  | Exits (status : Z)
  | Dies (e : py_exn).

(** The main block of [monitor_ioc.py] (lines 235-245) up to the call of
    [run]: the configuration is loaded, the class is created, which walks
    through the targets, and the IOC is instantiated. *)
Definition main (file : parsed) : started :=
  match load_config file with
  | SysExit status => Exits status
  | Returns target_pvs =>
      match py_iter target_pvs with
      | None => Dies NotIterable
      | Some items =>
          match names_of items with
          | None => Dies NoAttribute
          | Some names => Serving (create_monitor_ioc_class names)
          end
      end
  end.

(** ** The display generator, [generate_gui.py] *)

Definition CONFIG_FILE : string := "config.yaml".
Definition TEMPLATE_FILE : string := "row_template.bob".
Definition OUTPUT_FILE : string := "main.bob".
Definition ROW_HEIGHT : nat := 40.

Definition nl : string := String (ascii_of_nat 10) EmptyString.

(** A text between double quotes. *)
Definition quoted (s : string) : string :=
  String (ascii_of_nat 34) (s ++ String (ascii_of_nat 34) EmptyString).

(** [str(x)] of a scalar, as an f-string inserts it. *)
Definition py_str (v : scalar) : string :=
  match v with
  | SNull => "None"
  | SBool true => "True"
  | SBool false => "False"
  | SInt n => pretty n
  | SStr s => s
  end.

(** [', '.join]-like joining with a separator: [sep.join(l)]. *)
Fixpoint join (sep : string) (l : list string) : string :=
  match l with
  | [] => EmptyString
  | [x] => x
  | x :: rest => x ++ sep ++ join sep rest
  end.

(** The vertical position of row [i] and the height of the display for [n]
    rows (lines 30 and 25). *)
Definition y_pos (i : nat) : nat := (i * ROW_HEIGHT)%nat.
Definition display_height (n : nat) : nat := (n * ROW_HEIGHT + 50)%nat.

(** The widget of row [i] (lines 31-42). *)
Definition widget (i : nat) (pv_name : scalar) : string :=
  nl ++ "  <widget type=" ++ quoted "embedded" ++ " version=" ++ quoted "2.0.0" ++ ">"
  ++ nl ++ "    <name>Row_" ++ pretty i ++ "</name>"
  ++ nl ++ "    <file>" ++ TEMPLATE_FILE ++ "</file>"
  ++ nl ++ "    <x>0</x>"
  ++ nl ++ "    <y>" ++ pretty (y_pos i) ++ "</y>"
  ++ nl ++ "    <width>800</width>"
  ++ nl ++ "    <height>" ++ pretty ROW_HEIGHT ++ "</height>"
  ++ nl ++ "    <macros>"
  ++ nl ++ "      <PV>" ++ py_str pv_name ++ "</PV>"
  ++ nl ++ "    </macros>"
  ++ nl ++ "  </widget>".

(** The header of the display (lines 20-26). *)
Definition header (n : nat) : list string :=
  [ "<?xml version=" ++ quoted "1.0" ++ " encoding=" ++ quoted "UTF-8" ++ "?>";
    "<display version=" ++ quoted "2.0.0" ++ ">";
    "  <name>PVwatcher Main Display</name>";
    "  <width>800</width>";
    "  <height>" ++ pretty (display_height n) ++ "</height>" ]%string.

(** [xml_content] when it is written out (lines 20-44). *)
Definition xml_content (pv_list : list scalar) : list string :=
  header (length pv_list) ++ imap widget pv_list ++ ["</display>"%string].

(** How a run of the generator ends: normally, with what it wrote to
    [main.bob], if anything, and what it printed; or with an exception,
    before anything is written. *)
Inductive bob_run : Type :=
  | Finished (main_bob : option string) (printed : string)
  | BobDies (e : py_exn).

(** [generate_bob] (lines 10-49); [file_exists] is
    [os.path.exists(CONFIG_FILE)]. *)
Definition generate_bob (file_exists : bool) (file : parsed) : bob_run :=
  if negb file_exists then Finished None ("Error: " ++ CONFIG_FILE ++ " not found.")
  else
    match file with
    | Unreadable => BobDies ReadError
    | Document (YMap config) =>
        let pv_list := dict_get config "pvs" (YSeq []) in
        match py_iter pv_list with
        | None => BobDies NotIterable
        | Some items =>
            Finished (Some (join nl (xml_content items)))
                     ("Successfully generated " ++ OUTPUT_FILE ++ " with "
                      ++ pretty (length items) ++ " rows.")
        end
    | Document (YScalar _) | Document (YSeq _) => BobDies NoAttribute
    end.

(** A configuration that names its channels under [pvs] only. *)
Definition pvs_only : parsed :=
  Document (YMap [("pvs"%string, YSeq [SStr "T1"; SStr "T2"])]).

(** A configuration with the targets of the IOC. *)
Definition with_targets : parsed :=
  Document (YMap [("target_pvs"%string, YSeq [SStr "T1"; SStr "T2"])]).

(** ** Channels of the control points *)

(** The target whose name the properties of an attribute suffix carry:
    [class_dict] has one entry per attribute name, and in the loop of lines
    212-228 a later target of the list overwrites the entry of an earlier
    one with the same suffix, so the last one is left. *)
Definition point_owner (target_pvs : list string) (attr_suffix : string) : option string :=
  last (filter (λ t, replace_colon t = attr_suffix) target_pvs).

(** A client writes to the channel [<target>:ENABLE], [<target>:LOW] or
    [<target>:HIGH].  The channel exists when the properties of the target's
    suffix carry this target's name; a write to a name that no property
    carries finds no channel and does not reach the IOC. *)
Definition ca_write (target : string) (w : field_value) : M unit :=
  λ g, if decide (point_owner (target_pvs_list g) (replace_colon target) = Some target)
       then write_field target w g
       else (Raise ConnectionError, g).

(** ** Runs of the IOC *)

(** What can happen to a running IOC, one coroutine step at a time: the
    start-up hook, a whole subscription loop, a single response of a
    subscription, a write to the master switch or to a control point, the
    passing of time, a recompute. *)
Inductive ioc_op : Type :=
  | OpStartup (get_pvs : list string → res (list pv))
  | OpMonitorLoop (p : pv)
  | OpResponse (name : string) (val : pyval)
  | OpWriteMaster (value : Z)
  | OpWriteField (target : string) (w : field_value)
  | OpAdvance (t : nat)
  | OpRecompute (master_enable_override : option Z).

Definition apply_op (o : ioc_op) (g : ioc) : ioc :=
  match o with
  | OpStartup get_pvs => snd (master_enable_startup get_pvs g)
  | OpMonitorLoop p => snd (_monitor_loop p g)
  | OpResponse name val => snd (monitor_response name val g)
  | OpWriteMaster value => snd (write_master_enable value g)
  | OpWriteField target w => snd (ca_write target w g)
  | OpAdvance t => run_until t g
  | OpRecompute ov => snd (_update_summary ov g)
  end.

Definition apply_ops (ops : list ioc_op) (g : ioc) : ioc :=
  foldl (λ g' o, apply_op o g') g ops.

(** Every value of the list is the other one of 0 and 1 than the value
    before it, [prev] being the value before the first. *)
Fixpoint alternates (prev : Z) (l : list Z) : bool :=
  match l with
  | [] => true
  | x :: rest => (x =? 1 - prev) && alternates x rest
  end.

(** The writes to the status alternate, starting from the initial 1, and the
    status is the last value written. *)
Definition published_alternates (g : ioc) : Prop :=
  alternates 1 (published g) = true
  ∧ summary_status g = default 1 (last (published g)).

(** The same targets and the same control points as in [g]. *)
Definition same_membership (g g' : ioc) : Prop :=
  target_pvs_list g' = target_pvs_list g
  ∧ dom (controls g') = dom (controls g).

(** A handle whose first read delivers an array of two numbers. *)
Definition array_pv : pv :=
  {| pv_name := "T1"; pv_read := Ok (PList [PInt 150; PInt 7]);
     pv_responses := []; pv_sub_fails := false |}.

(** [T1] holds 150 and [T2] holds the empty list. *)
Definition violation_then_list : ioc :=
  target_values_set "T2" (PList []) (target_values_set "T1" (PInt 150) two_targets).

(** * Properties *)

(** Opens the sequencing of a coroutine: binds, reads of the state, updates
    and logger calls become plain functions of the state. *)
Ltac run_py := unfold mbind, M_bind, bind, logger, modify, get.

(** ** The loop and the recompute as functions of the registry *)

Lemma check_targets_eq (targets : list string) (g : ioc) :
  check_targets targets g =
    match first_alarm g targets with
    | Raise e => (Raise e, g)
    | Ok None => (Ok true, g)
    | Ok (Some t) => (Ok false, add_log (alarm_entry g t) g)
    end.
Proof.
  induction targets as [|target rest IH]; [reflexivity|].
  cbn [check_targets first_alarm].
  run_py; unfold target_alarm, evaluated, alarm_entry, out_of_limits.
  destruct (controls g !! replace_colon target) as [c|] eqn:Hc; simpl; [|apply IH].
  destruct (negb (enable c =? 0) && negb (is_none (target_values_get g target)));
    simpl; [|apply IH].
  unfold lift, py_lt, py_gt.
  destruct (py_compare (target_values_get g target) (low c)) as [[[]|]|]; simpl;
    try reflexivity; try (rewrite Hc; reflexivity);
    destruct (py_compare (target_values_get g target) (high c)) as [[[]|]|]; simpl;
    try reflexivity; try (rewrite Hc; reflexivity); apply IH.
Qed.

(** The loop reads the targets' controls and values and nothing else. *)
Lemma target_alarm_ext (g1 g2 : ioc) (t : string) :
  controls g1 = controls g2 → target_values g1 = target_values g2 →
  target_alarm g1 t = target_alarm g2 t.
Proof.
  intros Hc Hv. unfold target_alarm, evaluated, target_values_get.
  by rewrite Hc, Hv.
Qed.

Lemma first_alarm_ext (g1 g2 : ioc) (targets : list string) :
  controls g1 = controls g2 → target_values g1 = target_values g2 →
  first_alarm g1 targets = first_alarm g2 targets.
Proof.
  intros Hc Hv. induction targets as [|t rest IH]; [reflexivity|].
  cbn [first_alarm]. by rewrite IH, (target_alarm_ext g1 g2).
Qed.

Lemma alarm_entry_ext (g1 g2 : ioc) (t : string) :
  controls g1 = controls g2 → target_values g1 = target_values g2 →
  alarm_entry g1 t = alarm_entry g2 t.
Proof. intros Hc Hv. unfold alarm_entry, target_values_get. by rewrite Hc, Hv. Qed.

Lemma update_summary_eq (ov : option Z) (g : ioc) :
  _update_summary ov g =
    let g0 := count_update_call g in
    if effective_master ov g =? 0 then (Ok tt, settle 1 InfoMasterDisabled g0)
    else match first_alarm g (target_pvs_list g) with
         | Raise e => (Raise e, g0)
         | Ok None => (Ok tt, settle 1 (InfoUpdatingSummary 1) g0)
         | Ok (Some t) =>
             (Ok tt, settle 0 (InfoUpdatingSummary 0) (add_log (alarm_entry g t) g0))
         end.
Proof.
  unfold _update_summary, settle, effective_master; run_py.
  cbn zeta. change (master_enable (count_update_call g)) with (master_enable g).
  destruct (match ov with Some v => v | None => master_enable g end =? 0).
  - simpl. by destruct (summary_status g =? 1).
  - rewrite check_targets_eq.
    change (target_pvs_list (count_update_call g)) with (target_pvs_list g).
    rewrite (first_alarm_ext (count_update_call g) g) by reflexivity.
    destruct (first_alarm g (target_pvs_list g)) as [[t|]|e]; try reflexivity.
    + rewrite (alarm_entry_ext (count_update_call g) g) by reflexivity.
      generalize (alarm_entry g t). intros entry. simpl.
      by destruct (summary_status g =? 0).
    + simpl. by destruct (summary_status g =? 1).
Qed.

(** What [settle] leaves alone and what it changes. *)
Lemma settle_status (s : Z) (entry : log_entry) (g : ioc) :
  summary_status (settle s entry g) = s.
Proof.
  unfold settle. destruct (summary_status g =? s) eqn:E; [|reflexivity].
  by apply Z.eqb_eq.
Qed.

Lemma settle_published (s : Z) (entry : log_entry) (g : ioc) :
  published (settle s entry g) =
    published g ++ (if summary_status g =? s then [] else [s]).
Proof.
  unfold settle. destruct (summary_status g =? s); simpl; [|reflexivity].
  by rewrite app_nil_r.
Qed.

Lemma settle_frame (s : Z) (entry : log_entry) (g : ioc) :
  target_pvs_list (settle s entry g) = target_pvs_list g
  ∧ master_enable (settle s entry g) = master_enable g
  ∧ controls (settle s entry g) = controls g
  ∧ target_values (settle s entry g) = target_values g
  ∧ monitor_tasks (settle s entry g) = monitor_tasks g
  ∧ monitored_pvs (settle s entry g) = monitored_pvs g
  ∧ sleeping (settle s entry g) = sleeping g
  ∧ loop_time (settle s entry g) = loop_time g
  ∧ update_calls (settle s entry g) = update_calls g.
Proof. unfold settle. by destruct (summary_status g =? s). Qed.

(** A recompute touches the status, its publications, the log and the call
    counter; the registry and the loop stay as they are. *)
Lemma update_summary_frame (ov : option Z) (g : ioc) :
  let g' := snd (_update_summary ov g) in
  target_pvs_list g' = target_pvs_list g
  ∧ master_enable g' = master_enable g
  ∧ controls g' = controls g
  ∧ target_values g' = target_values g
  ∧ monitor_tasks g' = monitor_tasks g
  ∧ monitored_pvs g' = monitored_pvs g
  ∧ sleeping g' = sleeping g
  ∧ loop_time g' = loop_time g
  ∧ update_calls g' = S (update_calls g).
Proof.
  rewrite update_summary_eq. cbn zeta.
  destruct (effective_master ov g =? 0);
    [|destruct (first_alarm g (target_pvs_list g)) as [[t|]|e]]; cbn [snd];
    try (match goal with
         | |- context [settle ?s ?e ?g0] =>
             destruct (settle_frame s e g0) as (-> & -> & -> & -> & -> & -> & -> & -> & ->)
         end);
    by repeat split.
Qed.

(** The outcome of a recompute, from the status it computes. *)
Lemma outcome_update_summary (ov : option Z) (g : ioc) :
  outcome (_update_summary ov g) =
    match computed_status ov g with
    | Ok s => (Ok tt, s, published g ++ (if summary_status g =? s then [] else [s]))
    | Raise e => (Raise e, summary_status g, published g)
    end.
Proof.
  rewrite update_summary_eq. unfold computed_status, outcome. cbn zeta.
  destruct (effective_master ov g =? 0).
  - cbn [fst snd]. by rewrite settle_status, settle_published.
  - destruct (first_alarm g (target_pvs_list g)) as [[t|]|e]; cbn [fst snd res_map];
      [by rewrite settle_status, settle_published ..| reflexivity].
Qed.

(** ** Alarms, target by target *)

Lemma first_alarm_none (g : ioc) (targets : list string) :
  first_alarm g targets = Ok None ↔
  ∀ target, target ∈ targets → target_alarm g target = Ok false.
Proof.
  induction targets as [|t rest IH]; cbn [first_alarm].
  - split; [intros _ target Hin; by apply not_elem_of_nil in Hin | done].
  - destruct (target_alarm g t) as [[]|e] eqn:Ht.
    + split; [done|]. intros H. specialize (H t (list_elem_of_here _ _)). congruence.
    + rewrite IH. split.
      * intros H target [->|Hin]%elem_of_cons; [done | by apply H].
      * intros H target Hin. apply H. by apply list_elem_of_further.
    + split; [done|]. intros H. specialize (H t (list_elem_of_here _ _)). congruence.
Qed.

Lemma first_alarm_some (g : ioc) (targets : list string) (t : string) :
  first_alarm g targets = Ok (Some t) → t ∈ targets ∧ target_alarm g t = Ok true.
Proof.
  induction targets as [|t' rest IH]; cbn [first_alarm]; [done|].
  destruct (target_alarm g t') as [[]|e] eqn:Ht; [| |done].
  - intros [= <-]. split; [apply list_elem_of_here | done].
  - intros [Hin Ha]%IH. split; [by apply list_elem_of_further | done].
Qed.

Lemma py_compare_raises (v : pyval) (limit : spec_float) (e : exn) :
  py_compare v limit = Raise e → e = TypeError ∧ is_number v = false.
Proof. destruct v; simpl; intros [=]; done. Qed.

Lemma out_of_limits_raises (c : control) (v : pyval) (e : exn) :
  out_of_limits c v = Raise e → e = TypeError ∧ is_number v = false.
Proof.
  unfold out_of_limits, py_lt, py_gt.
  destruct (py_compare v (low c)) as [o|e1] eqn:E1; simpl.
  - destruct (match o with Some Lt => true | _ => false end); [done|].
    destruct (py_compare v (high c)) as [o2|e2] eqn:E2; simpl; [done|].
    intros [= <-]. by apply py_compare_raises in E2.
  - intros [= <-]. by apply py_compare_raises in E1.
Qed.

Lemma first_alarm_raises (g : ioc) (targets : list string) (e : exn) :
  first_alarm g targets = Raise e →
  e = TypeError ∧
  ∃ target, target ∈ targets ∧ is_number (target_values_get g target) = false
            ∧ is_none (target_values_get g target) = false.
Proof.
  induction targets as [|t rest IH]; cbn [first_alarm]; [done|].
  destruct (target_alarm g t) as [[]|e'] eqn:Ht; [done| |].
  - intros [-> (target & Hin & Hn)]%IH. split; [done|].
    exists target. split; [by apply list_elem_of_further | done].
  - intros [= <-]. unfold target_alarm, evaluated in Ht.
    destruct (controls g !! replace_colon t) as [c|]; simpl in Ht; [|done].
    destruct (enable c =? 0); simpl in Ht; [done|].
    destruct (is_none (target_values_get g t)) eqn:En; simpl in Ht; [done|].
    apply out_of_limits_raises in Ht as [-> Hnum]. split; [done|].
    exists t. split; [apply list_elem_of_here | done].
Qed.

Lemma numeric_registry_no_raise (g : ioc) :
  numeric_registry g = true → ∃ a, first_alarm g (target_pvs_list g) = Ok a.
Proof.
  intros Hn. destruct (first_alarm g (target_pvs_list g)) as [a|e] eqn:E; [by exists a|].
  apply first_alarm_raises in E as [_ (target & Hin & Hnum & Hnone)].
  unfold numeric_registry in Hn. rewrite forallb_forall in Hn.
  apply list_elem_of_In, Hn in Hin. cbn zeta in Hin.
  rewrite Hnum, Hnone in Hin. done.
Qed.

Lemma target_alarm_false (g : ioc) (target : string) :
  target_alarm g target = Ok false ↔
  ∀ c v, evaluated g target = Some (c, v) → out_of_limits c v = Ok false.
Proof.
  unfold target_alarm. destruct (evaluated g target) as [[c v]|].
  - split; [by intros H c' v' [= <- <-] | intros H; by apply H].
  - split; [done | done].
Qed.

(** With a number for a value and no NaN around, "neither below the low
    limit nor above the high limit" is [low <= value <= high]. *)
Lemma ordered_in_bounds (c : control) (v : pyval) :
  ordered c v = true → (out_of_limits c v = Ok false ↔ in_bounds c v).
Proof.
  unfold ordered, out_of_limits, in_bounds, py_lt, py_gt, py_ge, py_le.
  destruct (py_compare v (low c)) as [[[]|]|]; simpl; try done;
    destruct (py_compare v (high c)) as [[[]|]|]; simpl; try done;
    intros _; split; try done; try (by intros [? ?]).
Qed.

Lemma update_summary_fst (ov : option Z) (g : ioc) :
  fst (_update_summary ov g) =
    match computed_status ov g with Ok _ => Ok tt | Raise e => Raise e end.
Proof.
  pose proof (outcome_update_summary ov g) as H. unfold outcome in H.
  destruct (computed_status ov g); by injection H.
Qed.

Lemma update_summary_status (ov : option Z) (g : ioc) :
  summary_status (snd (_update_summary ov g)) =
    match computed_status ov g with Ok s => s | Raise _ => summary_status g end.
Proof.
  pose proof (outcome_update_summary ov g) as H. unfold outcome in H.
  destruct (computed_status ov g); by injection H.
Qed.

Lemma update_summary_published (ov : option Z) (g : ioc) :
  published (snd (_update_summary ov g)) =
    match computed_status ov g with
    | Ok s => published g ++ (if summary_status g =? s then [] else [s])
    | Raise _ => published g
    end.
Proof.
  pose proof (outcome_update_summary ov g) as H. unfold outcome in H.
  destruct (computed_status ov g); by injection H.
Qed.

Lemma computed_status_01 (ov : option Z) (g : ioc) (s : Z) :
  computed_status ov g = Ok s → s = 0 ∨ s = 1.
Proof.
  unfold computed_status. destruct (effective_master ov g =? 0).
  - intros [= <-]. by right.
  - destruct (first_alarm g (target_pvs_list g)) as [[t|]|e]; simpl;
      intros [= <-]; [by left | by right].
Qed.

(** ** The scenarios of the specification *)

Example scenario_A_healthy : summary_status scenario_A = 1.
Proof. vm_compute. reflexivity. Qed.

Example scenario_B_alarm :
  summary_status scenario_B = 0 ∧ published scenario_B = [0].
Proof. split; vm_compute; reflexivity. Qed.

Example scenario_C_master_off :
  summary_status scenario_C = 1
  ∧ target_values scenario_C !! "T2"%string = Some (PFloat SF15).
Proof. split; vm_compute; reflexivity. Qed.

Example scenario_D_disabled : summary_status scenario_D = 1.
Proof. vm_compute. reflexivity. Qed.

Example scenario_E_unknown_value :
  summary_status scenario_E = 1 ∧ target_values_get scenario_E "T2" = PNone.
Proof. split; vm_compute; reflexivity. Qed.

(** ** The claims *)

(** C1 (as amended).  With the master switch on ([MasterEnable] is 1, or any
    value other than 0) and a recompute that completes, the new
    [AggregatedStatus] is 1 if and only if no target whose enable flag is set
    and whose value is known has [value < low] or [value > high]; otherwise it
    is 0.  For a numeric value and limits none of which is a NaN, that test is
    [low <= value <= high], bounds inclusive. *)
Theorem status_healthy_iff_no_target_out_of_limits (g : ioc) :
  master_enable g ≠ 0 →
  fst (_update_summary None g) = Ok tt →
  let g' := snd (_update_summary None g) in
  (summary_status g' = 1 ↔
     ∀ target c v, target ∈ target_pvs_list g →
                   evaluated g target = Some (c, v) → out_of_limits c v = Ok false)
  ∧ (summary_status g' = 1 ∨ summary_status g' = 0)
  ∧ (∀ c v, ordered c v = true → (out_of_limits c v = Ok false ↔ in_bounds c v)).
Proof.
  intros Hm Hok g'. subst g'.
  rewrite update_summary_fst in Hok. rewrite update_summary_status.
  unfold computed_status, effective_master in *.
  apply Z.eqb_neq in Hm. rewrite Hm in *.
  split; [|split; [|apply ordered_in_bounds]].
  - destruct (first_alarm g (target_pvs_list g)) as [[t|]|e] eqn:E; simpl in *; [| |done].
    + split; [done|]. intros H. apply first_alarm_some in E as [Hin Ha].
      unfold target_alarm in Ha.
      destruct (evaluated g t) as [[c v]|] eqn:Ev; [|done].
      rewrite (H t c v Hin Ev) in Ha. done.
    + split; [|done]. intros _ target c v Hin Ev.
      rewrite first_alarm_none in E. specialize (E target Hin).
      by apply (target_alarm_false g target).
  - destruct (first_alarm g (target_pvs_list g)) as [[t|]|e]; simpl in *;
      [by right | by left | done].
Qed.

Lemma status_healthy_iff_no_target_out_of_limits_witness :
  master_enable one_violation ≠ 0
  ∧ fst (_update_summary None one_violation) = Ok tt
  ∧ (let g' := snd (_update_summary None one_violation) in
     (summary_status g' = 1 ↔
        ∀ target c v, target ∈ target_pvs_list one_violation →
                      evaluated one_violation target = Some (c, v) →
                      out_of_limits c v = Ok false)
     ∧ (summary_status g' = 1 ∨ summary_status g' = 0)
     ∧ (∀ c v, ordered c v = true → (out_of_limits c v = Ok false ↔ in_bounds c v))).
Proof.
  assert (Hm : master_enable one_violation ≠ 0) by (vm_compute; discriminate).
  assert (Hok : fst (_update_summary None one_violation) = Ok tt)
    by (vm_compute; reflexivity).
  split; [exact Hm | split; [exact Hok|]].
  exact (status_healthy_iff_no_target_out_of_limits one_violation Hm Hok).
Defined.

(** C1 as stated fails on a NaN: [T1] is enabled, its value is known and
    [0.0 <= nan <= 100.0] is false, yet the recompute leaves the status at 1. *)
Lemma nan_reading_is_reported_healthy :
  master_enable nan_reading = 1
  ∧ fst (_update_summary None nan_reading) = Ok tt
  ∧ summary_status (snd (_update_summary None nan_reading)) = 1
  ∧ "T1"%string ∈ target_pvs_list nan_reading
  ∧ evaluated nan_reading "T1" = Some (default_control, PFloat S754_nan)
  ∧ ¬ in_bounds default_control (PFloat S754_nan).
Proof.
  repeat split; try (vm_compute; reflexivity).
  - apply list_elem_of_here.
  - intros [H _]. revert H. vm_compute. discriminate.
Qed.

(** C2.  With [MasterEnable] at 0 the recompute completes and leaves
    [AggregatedStatus] at 1, whatever the targets' flags, limits and values
    are; and a write to [MasterEnable] recomputes with the written value: the
    outcome is that of a recompute on the registry in which the switch
    already has the new value, whatever value it had before. *)
Theorem master_off_forces_healthy (g : ioc) (value : Z) :
  (master_enable g = 0 →
     fst (_update_summary None g) = Ok tt
     ∧ summary_status (snd (_update_summary None g)) = 1)
  ∧ (fst (write_master_enable value g)
       = fst (_update_summary None (set_master_enable value g))
     ∧ summary_status (snd (write_master_enable value g))
       = summary_status (snd (_update_summary None (set_master_enable value g)))
     ∧ published (snd (write_master_enable value g))
       = published (snd (_update_summary None (set_master_enable value g))))
  ∧ (value = 0 →
       fst (write_master_enable value g) = Ok tt
       ∧ summary_status (snd (write_master_enable value g)) = 1
       ∧ master_enable (snd (write_master_enable value g)) = 0).
Proof.
  assert (Hw : write_master_enable value g =
               match _update_summary (Some value)
                                     (add_log (InfoMasterEnableChanged value) g) with
               | (Ok _, g1) => (Ok tt, set_master_enable value g1)
               | (Raise e, g1) => (Raise e, g1)
               end).
  { unfold write_master_enable, master_enable_putter; run_py.
    cbn beta iota.
    by destruct (_update_summary (Some value) (add_log (InfoMasterEnableChanged value) g))
      as [[[]|e] g1]. }
  set (gl := add_log (InfoMasterEnableChanged value) g) in *.
  assert (Hc : computed_status (Some value) gl
               = computed_status None (set_master_enable value g)).
  { unfold computed_status. cbn [effective_master set_master_enable master_enable].
    by rewrite (first_alarm_ext gl (set_master_enable value g)). }
  pose proof (update_summary_fst (Some value) gl) as Hf.
  pose proof (update_summary_status (Some value) gl) as Hs.
  pose proof (update_summary_published (Some value) gl) as Hp.
  pose proof (update_summary_frame (Some value) gl) as Hfr. cbn zeta in Hfr.
  rewrite Hc in Hf, Hs, Hp.
  split; [|split].
  - intros Hm. rewrite update_summary_fst, update_summary_status.
    unfold computed_status, effective_master. by rewrite Hm.
  - rewrite Hw, update_summary_fst, update_summary_status, update_summary_published.
    destruct (_update_summary (Some value) gl) as [[[]|e] g1]; cbn [fst snd] in *;
      destruct (computed_status None (set_master_enable value g)); try done.
  - intros ->. rewrite Hw.
    unfold computed_status in Hf, Hs. cbn [effective_master set_master_enable master_enable] in Hf, Hs.
    destruct (_update_summary (Some 0) gl) as [[[]|e] g1]; cbn [fst snd] in *; done.
Qed.

Lemma master_off_forces_healthy_witness :
  master_enable master_off = 0
  ∧ summary_status master_off = 0
  ∧ (fst (_update_summary None master_off) = Ok tt
     ∧ summary_status (snd (_update_summary None master_off)) = 1)
  ∧ 0 = 0
  ∧ (fst (write_master_enable 0 one_violation) = Ok tt
     ∧ summary_status (snd (write_master_enable 0 one_violation)) = 1
     ∧ master_enable (snd (write_master_enable 0 one_violation)) = 0).
Proof.
  assert (Hm : master_enable master_off = 0) by reflexivity.
  split; [exact Hm | split; [reflexivity | split]].
  - exact (proj1 (master_off_forces_healthy master_off 0) Hm).
  - split; [reflexivity|].
    exact (proj2 (proj2 (master_off_forces_healthy one_violation 0)) eq_refl).
Defined.

(** C3.  A recompute writes [AggregatedStatus] only when the status it
    computed differs from the published one, and then once; when the two are
    equal, and when the recompute raises, nothing is written and the status
    stays as it was. *)
Theorem summary_written_only_on_change (ov : option Z) (g : ioc) :
  let g' := snd (_update_summary ov g) in
  match computed_status ov g with
  | Ok new_status =>
      summary_status g' = new_status
      ∧ published g' = published g ++
                       (if summary_status g =? new_status then [] else [new_status])
  | Raise _ => summary_status g' = summary_status g ∧ published g' = published g
  end
  ∧ ((published g' = published g ∧ summary_status g' = summary_status g)
     ∨ (published g' = published g ++ [summary_status g']
        ∧ summary_status g' ≠ summary_status g)).
Proof.
  cbn zeta. rewrite update_summary_status, update_summary_published.
  destruct (computed_status ov g) as [s|e]; [|by split; [|left]].
  split; [done|].
  destruct (summary_status g =? s) eqn:E.
  - apply Z.eqb_eq in E. left. by rewrite app_nil_r.
  - apply Z.eqb_neq in E. right. split; [done | congruence].
Qed.

Lemma summary_written_only_on_change_witness :
  summary_status one_violation = 1
  ∧ computed_status None one_violation = Ok 0
  ∧ published (snd (_update_summary None one_violation)) = published one_violation ++ [0]
  ∧ computed_status None scenario_A = Ok 1
  ∧ published (snd (_update_summary None scenario_A)) = published scenario_A ++ [].
Proof.
  assert (H1 : computed_status None one_violation = Ok 0) by (vm_compute; reflexivity).
  assert (H2 : computed_status None scenario_A = Ok 1) by (vm_compute; reflexivity).
  pose proof (summary_written_only_on_change None one_violation) as [Hv _].
  pose proof (summary_written_only_on_change None scenario_A) as [Ha _].
  rewrite H1 in Hv. rewrite H2 in Ha.
  split; [reflexivity | split; [exact H1 | split; [exact (proj2 Hv)|]]].
  split; [exact H2 | exact (proj2 Ha)].
Defined.

Lemma target_alarm_raises (g : ioc) (target : string) :
  (∃ e, target_alarm g target = Raise e)
  ↔ ∃ c v, evaluated g target = Some (c, v) ∧ is_number v = false.
Proof.
  unfold target_alarm. destruct (evaluated g target) as [[c v]|]; split.
  - intros [e He]. apply out_of_limits_raises in He as [_ Hn]. by exists c, v.
  - intros (c' & v' & [= <- <-] & Hn). exists TypeError.
    unfold out_of_limits, py_lt. by destruct v.
  - by intros [e He].
  - by intros (c & v & H & _).
Qed.

(** The scan raises exactly when, going down the list, it reaches a target
    that is evaluated and holds something else than a number before it
    reaches a target in alarm. *)
Lemma first_alarm_raises_at (g : ioc) (targets : list string) :
  (∃ e, first_alarm g targets = Raise e)
  ↔ ∃ pre target post c v,
      targets = pre ++ target :: post
      ∧ (∀ t, t ∈ pre → target_alarm g t = Ok false)
      ∧ evaluated g target = Some (c, v)
      ∧ is_number v = false.
Proof.
  split.
  - induction targets as [|t rest IH]; cbn [first_alarm]; [by intros [e He]|].
    destruct (target_alarm g t) as [[]|e'] eqn:Ht.
    + by intros [e He].
    + intros (pre & target & post & c & v & -> & Hpre & Hev & Hn)%IH.
      exists (t :: pre), target, post, c, v. split; [done|]. split; [|done].
      intros t' [->|Hin]%elem_of_cons; [done | by apply Hpre].
    + intros _.
      destruct (proj1 (target_alarm_raises g t) (ex_intro _ e' Ht)) as (c & v & Hev & Hn).
      exists [], t, rest, c, v. split; [done|]. split; [|done].
      intros t' Hin. by apply not_elem_of_nil in Hin.
  - intros (pre & target & post & c & v & -> & Hpre & Hev & Hn).
    induction pre as [|p pre IH]; cbn [app first_alarm].
    + destruct (proj2 (target_alarm_raises g target)) as [e He]; [by exists c, v|].
      rewrite He. by exists e.
    + rewrite (Hpre p (list_elem_of_here _ _)). apply IH.
      intros t Hin. apply Hpre. by apply list_elem_of_further.
Qed.

(** C4 (as amended).  The recompute always terminates.  It produces a 0/1
    status when the master switch is off, when every listed target has no
    value yet or holds a number, or when every listed target that is
    evaluated (properties present, enabled, value known) holds a number.  In
    every case it either produces a 0/1 status or raises [TypeError] and then
    writes nothing; and it raises exactly when the master switch is on and
    the scan, going down the list, reaches an evaluated target whose value is
    not a number before it reaches a target in alarm. *)
Theorem recompute_total_on_numbers (ov : option Z) (g : ioc) :
  let r := _update_summary ov g in
  (effective_master ov g = 0 ∨ numeric_registry g = true
   ∨ (∀ target c v, target ∈ target_pvs_list g →
                    evaluated g target = Some (c, v) → is_number v = true) →
     fst r = Ok tt ∧ (summary_status (snd r) = 0 ∨ summary_status (snd r) = 1))
  ∧ ((fst r = Ok tt ∧ (summary_status (snd r) = 0 ∨ summary_status (snd r) = 1))
     ∨ (fst r = Raise TypeError
        ∧ summary_status (snd r) = summary_status g
        ∧ published (snd r) = published g
        ∧ ∃ target, target ∈ target_pvs_list g
                    ∧ is_none (target_values_get g target) = false
                    ∧ is_number (target_values_get g target) = false))
  ∧ (fst r = Raise TypeError
     ↔ effective_master ov g ≠ 0
       ∧ ∃ pre target post c v,
           target_pvs_list g = pre ++ target :: post
           ∧ (∀ t, t ∈ pre → target_alarm g t = Ok false)
           ∧ evaluated g target = Some (c, v)
           ∧ is_number v = false).
Proof.
  cbn zeta. rewrite update_summary_fst, update_summary_status, update_summary_published.
  assert (Hraise : ∀ e, computed_status ov g = Raise e →
                        e = TypeError ∧ effective_master ov g ≠ 0
                        ∧ first_alarm g (target_pvs_list g) = Raise TypeError).
  { intros e E. unfold computed_status in E.
    destruct (effective_master ov g =? 0) eqn:Em; [done|]. apply Z.eqb_neq in Em.
    destruct (first_alarm g (target_pvs_list g)) as [a|e'] eqn:Ef; [done|].
    simpl in E. injection E as <-.
    destruct (first_alarm_raises _ _ _ Ef) as [-> _]. done. }
  split; [|split].
  - intros H. destruct (computed_status ov g) as [s|e] eqn:E.
    + split; [done | by apply (computed_status_01 ov g)].
    + exfalso. destruct (Hraise e eq_refl) as (_ & Hm & Hf).
      destruct H as [H|[H|H]]; [done| |].
      * destruct (numeric_registry_no_raise g H) as [a Ha]. by rewrite Ha in Hf.
      * destruct (proj1 (first_alarm_raises_at g (target_pvs_list g))
                    (ex_intro _ TypeError Hf))
          as (pre & target & post & c & v & Hl & _ & Hev & Hn).
        assert (Hin : target ∈ target_pvs_list g).
        { rewrite Hl. apply elem_of_app. right. apply list_elem_of_here. }
        rewrite (H target c v Hin Hev) in Hn. done.
  - destruct (computed_status ov g) as [s|e] eqn:E.
    + left. split; [done | by apply (computed_status_01 ov g)].
    + right. destruct (Hraise e eq_refl) as (-> & _ & Hf).
      apply first_alarm_raises in Hf as [_ (target & Hin & Hnum & Hnone)].
      repeat split; try done. by exists target.
  - split.
    + destruct (computed_status ov g) as [s|e] eqn:E; [done|]. intros _.
      destruct (Hraise e eq_refl) as (_ & Hm & Hf). split; [done|].
      apply first_alarm_raises_at. by exists TypeError.
    + intros [Hm [e He]%first_alarm_raises_at].
      destruct (first_alarm_raises _ _ _ He) as [-> _].
      unfold computed_status. apply Z.eqb_neq in Hm. by rewrite Hm, He.
Qed.

Lemma recompute_total_on_numbers_witness :
  numeric_registry text_on_disabled = false
  ∧ (∀ target c v, target ∈ target_pvs_list text_on_disabled →
                   evaluated text_on_disabled target = Some (c, v) → is_number v = true)
  ∧ fst (_update_summary None text_on_disabled) = Ok tt
  ∧ (summary_status (snd (_update_summary None text_on_disabled)) = 0
     ∨ summary_status (snd (_update_summary None text_on_disabled)) = 1).
Proof.
  assert (H : ∀ target c v, target ∈ target_pvs_list text_on_disabled →
                evaluated text_on_disabled target = Some (c, v) → is_number v = true).
  { intros target c v Hin Hev.
    change (target_pvs_list text_on_disabled) with ["T1"; "T2"]%string in Hin.
    apply elem_of_cons in Hin as [->|Hin].
    - vm_compute in Hev. injection Hev as _ <-. reflexivity.
    - apply elem_of_cons in Hin as [->|Hin].
      + vm_compute in Hev. discriminate.
      + by apply not_elem_of_nil in Hin. }
  split; [vm_compute; reflexivity|]. split; [exact H|].
  exact (proj1 (recompute_total_on_numbers None text_on_disabled) (or_intror (or_intror H))).
Defined.

(** C4 as stated fails: the subscription delivers an empty array, the
    extraction stores the empty list, and the recompute that follows raises
    [TypeError] on [[] < 0.0]; the same happens with the value of a text
    channel, [[b'abc']], and with a text. *)
Lemma recompute_raises_on_stored_sequence :
  target_values (snd (monitor_response "T1" (PList []) two_targets)) !! "T1"%string
    = Some (PList [])
  ∧ fst (monitor_response "T1" (PList []) two_targets) = Raise TypeError
  ∧ fst (_update_summary None (snd (monitor_response "T1" (PList []) two_targets)))
    = Raise TypeError
  ∧ fst (monitor_response "T1" (PList [PBytes [97; 98; 99]]) two_targets)
    = Raise TypeError
  ∧ fst (monitor_response "T1" (PStr "abc") two_targets) = Raise TypeError.
Proof. repeat split; vm_compute; reflexivity. Qed.

(** ** Targets that take no part *)

Lemma excluded_no_alarm (g : ioc) (T : string) :
  disabled g T = true ∨ target_values_get g T = PNone → target_alarm g T = Ok false.
Proof.
  unfold disabled, target_alarm, evaluated.
  destruct (controls g !! replace_colon T) as [c|]; simpl; [|done].
  intros [-> | ->]; [done|]. simpl. by rewrite andb_false_r.
Qed.

Lemma target_alarm_set_other (g : ioc) (T t : string) (v : pyval) :
  t ≠ T → target_alarm (target_values_set T v g) t = target_alarm g t.
Proof.
  intros Hne. unfold target_alarm, evaluated, target_values_get, target_values_set.
  cbn [controls target_values set_target_values].
  by rewrite lookup_insert_ne.
Qed.

Lemma first_alarm_set_disabled (g : ioc) (T : string) (v1 v2 : pyval)
    (targets : list string) :
  disabled g T = true →
  first_alarm (target_values_set T v1 g) targets
  = first_alarm (target_values_set T v2 g) targets.
Proof.
  intros Hd. induction targets as [|t rest IH]; [reflexivity|].
  cbn [first_alarm]. rewrite IH.
  destruct (decide (t = T)) as [->|Hne].
  - rewrite !excluded_no_alarm; [done | by left | by left].
  - by rewrite !target_alarm_set_other.
Qed.

Lemma first_alarm_filter_excluded (g : ioc) (T : string) (targets : list string) :
  target_alarm g T = Ok false →
  first_alarm g (filter (λ t, t ≠ T) targets) = first_alarm g targets.
Proof.
  intros Ha. induction targets as [|t rest IH]; [reflexivity|].
  destruct (decide (t = T)) as [->|Hne].
  - rewrite filter_cons_False by (intros H; by apply H).
    cbn [first_alarm]. by rewrite Ha.
  - rewrite filter_cons_True by done. cbn [first_alarm]. by rewrite IH.
Qed.

(** C9.  A target that is disabled takes no part: two recomputes on
    registries that differ only in that target's value have the same outcome
    (same status, same writes, same completion).  And a target that is
    disabled or has no known value can be struck from the list of targets
    without changing the outcome. *)
Theorem excluded_target_never_influences (ov : option Z) (g : ioc) (T : string) :
  (disabled g T = true →
     ∀ v1 v2, outcome (_update_summary ov (target_values_set T v1 g))
              = outcome (_update_summary ov (target_values_set T v2 g)))
  ∧ (disabled g T = true ∨ target_values_get g T = PNone →
       outcome (_update_summary ov g)
       = outcome (_update_summary ov
                    (set_target_pvs_list (filter (λ t, t ≠ T) (target_pvs_list g)) g))).
Proof.
  split.
  - intros Hd v1 v2. rewrite !outcome_update_summary. unfold computed_status.
    cbn [target_values_set set_target_values summary_status published
         target_pvs_list effective_master master_enable].
    replace (effective_master ov (target_values_set T v1 g))
      with (effective_master ov (target_values_set T v2 g)) by (by destruct ov).
    by rewrite (first_alarm_set_disabled g T v1 v2).
  - intros He. rewrite !outcome_update_summary. unfold computed_status.
    set (g2 := set_target_pvs_list (filter (λ t, t ≠ T) (target_pvs_list g)) g).
    replace (effective_master ov g2) with (effective_master ov g) by (by destruct ov).
    rewrite (first_alarm_ext g2 g) by done.
    change (target_pvs_list g2) with (filter (λ t, t ≠ T) (target_pvs_list g)).
    by rewrite first_alarm_filter_excluded by (by apply excluded_no_alarm).
Qed.

Lemma excluded_target_never_influences_witness :
  disabled t2_disabled "T2" = true
  ∧ outcome (_update_summary None (target_values_set "T2" (PFloat SF5) t2_disabled))
    = outcome (_update_summary None (target_values_set "T2" (PInt 150) t2_disabled))
  ∧ (disabled two_targets "T1" = true ∨ target_values_get two_targets "T1" = PNone)
  ∧ outcome (_update_summary None two_targets)
    = outcome (_update_summary None
                 (set_target_pvs_list
                    (filter (λ t, t ≠ "T1"%string) (target_pvs_list two_targets))
                    two_targets)).
Proof.
  assert (Hd : disabled t2_disabled "T2" = true) by (vm_compute; reflexivity).
  assert (He : disabled two_targets "T1" = true ∨ target_values_get two_targets "T1" = PNone)
    by (right; vm_compute; reflexivity).
  split; [exact Hd|]. split.
  - exact (proj1 (excluded_target_never_influences None t2_disabled "T2") Hd
             (PFloat SF5) (PInt 150)).
  - split; [exact He|].
    exact (proj2 (excluded_target_never_influences None two_targets "T1") He).
Defined.

(** ** The full scan *)

Lemma full_scan_cases (targets : list string) (all_ok : bool) (g : ioc) :
  scan_frame g (snd (check_targets_full_scan targets all_ok g))
  ∧ match fst (check_targets_full_scan targets all_ok g) with
    | Ok b =>
        match first_alarm g targets with
        | Ok None => b = all_ok
        | Ok (Some _) => b = false
        | Raise _ => False
        end
    | Raise e => e = TypeError ∧ first_alarm g targets ≠ Ok None
    end.
Proof.
  revert all_ok g. induction targets as [|target rest IH]; intros all_ok g.
  { by repeat split. }
  cbn [check_targets_full_scan first_alarm].
  run_py; unfold target_alarm, evaluated, out_of_limits.
  destruct (controls g !! replace_colon target) as [c|] eqn:Hc; simpl; [|apply IH].
  destruct (negb (enable c =? 0) && negb (is_none (target_values_get g target)));
    simpl; [|apply IH].
  unfold lift.
  destruct (py_lt (target_values_get g target) (low c)) as [[]|e] eqn:Elt; simpl.
  - set (g1 := add_log _ g).
    destruct (IH false g1) as [(F1 & F2 & F3 & F4 & F5) Hr].
    split; [by repeat split|].
    rewrite (first_alarm_ext g1 g) in Hr by done.
    destruct (fst (check_targets_full_scan rest false g1)) as [b|e].
    + by destruct (first_alarm g rest) as [[t|]|e].
    + destruct Hr as [-> _]. done.
  - destruct (py_gt (target_values_get g target) (high c)) as [[]|e] eqn:Egt; simpl.
    + set (g1 := add_log _ g).
      destruct (IH false g1) as [(F1 & F2 & F3 & F4 & F5) Hr].
      split; [by repeat split|].
      rewrite (first_alarm_ext g1 g) in Hr by done.
      destruct (fst (check_targets_full_scan rest false g1)) as [b|e].
      * by destruct (first_alarm g rest) as [[t|]|e].
      * destruct Hr as [-> _]. done.
    + apply IH.
    + split; [by repeat split|].
      unfold py_gt in Egt.
      destruct (py_compare (target_values_get g target) (high c)) as [o|e'] eqn:Ec;
        [done|]. simpl in Egt. injection Egt as <-.
      by apply py_compare_raises in Ec as [-> _].
  - split; [by repeat split|].
    unfold py_lt in Elt.
    destruct (py_compare (target_values_get g target) (low c)) as [o|e'] eqn:Ec;
      [done|]. simpl in Elt. injection Elt as <-.
    by apply py_compare_raises in Ec as [-> _].
Qed.

Lemma outcome_update_summary_full_scan (ov : option Z) (g : ioc) :
  fst (_update_summary_full_scan ov g) = Ok tt →
  ∃ s, computed_status ov g = Ok s
       ∧ outcome (_update_summary_full_scan ov g)
         = (Ok tt, s, published g ++ (if summary_status g =? s then [] else [s])).
Proof.
  unfold _update_summary_full_scan, computed_status; run_py.
  cbn zeta.
  change (effective_master ov (count_update_call g)) with (effective_master ov g).
  destruct (effective_master ov g =? 0).
  - intros _. exists 1. split; [done|]. unfold outcome.
    change (summary_status (count_update_call g)) with (summary_status g).
    destruct (summary_status g =? 1) eqn:E; simpl.
    + apply Z.eqb_eq in E. by rewrite app_nil_r, E.
    + done.
  - change (target_pvs_list (count_update_call g)) with (target_pvs_list g).
    pose proof (full_scan_cases (target_pvs_list g) true (count_update_call g))
      as [(F1 & F2 & F3 & F4 & F5) Hr].
    rewrite (first_alarm_ext (count_update_call g) g) in Hr by done.
    destruct (check_targets_full_scan (target_pvs_list g) true (count_update_call g))
      as [[b|e] g1]; cbn [fst snd] in *; [|done].
    intros _.
    destruct (first_alarm g (target_pvs_list g)) as [[t|]|e]; [| |done]; subst b; simpl.
    + exists 0. split; [done|]. unfold outcome. rewrite F4.
      change (summary_status (count_update_call g)) with (summary_status g).
      destruct (summary_status g =? 0) eqn:E; simpl.
      * apply Z.eqb_eq in E. rewrite app_nil_r, F4, F5. by rewrite <- E.
      * by rewrite F5.
    + exists 1. split; [done|]. unfold outcome. rewrite F4.
      change (summary_status (count_update_call g)) with (summary_status g).
      destruct (summary_status g =? 1) eqn:E; simpl.
      * apply Z.eqb_eq in E. rewrite app_nil_r, F4, F5. by rewrite <- E.
      * by rewrite F5.
Qed.

Lemma violations_nil (g : ioc) :
  violations g = [] ↔ ∀ t, t ∈ target_pvs_list g → in_alarm g t = false.
Proof.
  unfold violations. induction (target_pvs_list g) as [|t rest IH].
  - split; [intros _ t Hin; by apply not_elem_of_nil in Hin | done].
  - destruct (in_alarm g t) eqn:E.
    + rewrite filter_cons_True by done. split; [done|].
      intros H. specialize (H t (list_elem_of_here _ _)). congruence.
    + rewrite filter_cons_False by (by rewrite E). rewrite IH. split.
      * intros H t' [->|Hin]%elem_of_cons; [done | by apply H].
      * intros H t' Hin. apply H. by apply list_elem_of_further.
Qed.




(** ** What the client delivers *)

Lemma extract_scalar_cases (val : pyval) :
  extract_scalar val =
    match val with
    | PList (x :: _) | PTuple (x :: _) => x
    | PBytes (b :: _) => PInt b
    | _ => val
    end.
Proof. by destruct val as [| | | | |[|]|[|]|[|]]. Qed.

Lemma monitor_response_eq (name : string) (val : pyval) (g : ioc) :
  monitor_response name val g
  = _update_summary None (target_values_set name (extract_scalar val) g).
Proof. reflexivity. Qed.

Lemma startup_pv_eq (p : pv) (g : ioc) :
  startup_pv p g =
    _update_summary None
      (add_task (pv_name p)
         (match pv_read p with
          | Ok val => target_values_set (pv_name p) (extract_scalar val)
                        (add_log (InfoSubscribing (pv_name p)) g)
          | Raise _ => add_log (ErrorFailedInitialRead (pv_name p))
                         (add_log (InfoSubscribing (pv_name p)) g)
          end)).
Proof.
  unfold startup_pv; run_py. cbn beta iota.
  by destruct (pv_read p).
Qed.

Lemma update_summary_target_values (ov : option Z) (g : ioc) :
  target_values (snd (_update_summary ov g)) = target_values g.
Proof. by destruct (update_summary_frame ov g) as (_ & _ & _ & H & _). Qed.

(** C7 (as amended).  For every payload, of the first read or of a
    subscription event, the value stored for the target is the payload's
    first item when the payload is a non-empty list, tuple or bytes, and the
    payload itself otherwise (a text, an empty sequence, a scalar); the
    recompute that follows runs on the registry that holds this value. *)
Theorem stored_value_is_extracted_scalar (name : string) (val : pyval) (g : ioc) :
  target_values (snd (monitor_response name val g)) !! name = Some (extract_scalar val)
  ∧ outcome (monitor_response name val g)
    = outcome (_update_summary None (target_values_set name (extract_scalar val) g))
  ∧ (∀ p, pv_name p = name → pv_read p = Ok val →
       target_values (snd (startup_pv p g)) !! name = Some (extract_scalar val)
       ∧ fst (startup_pv p g)
         = fst (_update_summary None (target_values_set name (extract_scalar val) g)))
  ∧ extract_scalar val =
      match val with
      | PList (x :: _) | PTuple (x :: _) => x
      | PBytes (b :: _) => PInt b
      | _ => val
      end.
Proof.
  split; [|split; [|split]].
  - rewrite monitor_response_eq, update_summary_target_values.
    apply lookup_insert_eq.
  - by rewrite monitor_response_eq.
  - intros p <- Hr. rewrite startup_pv_eq, Hr, update_summary_target_values.
    split; [apply lookup_insert_eq|].
    rewrite !update_summary_fst. unfold computed_status.
    set (g1 := add_task _ _). set (g2 := target_values_set _ _ g).
    change (effective_master None g1) with (effective_master None g2).
    change (target_pvs_list g1) with (target_pvs_list g2).
    by rewrite (first_alarm_ext g1 g2).
  - apply extract_scalar_cases.
Qed.

Lemma stored_value_is_extracted_scalar_witness :
  pv_name array_pv = "T1"%string
  ∧ pv_read array_pv = Ok (PList [PInt 150; PInt 7])
  ∧ target_values (snd (startup_pv array_pv two_targets)) !! "T1"%string = Some (PInt 150)
  ∧ fst (startup_pv array_pv two_targets)
    = fst (_update_summary None (target_values_set "T1" (PInt 150) two_targets))
  ∧ target_values (snd (monitor_response "T1" (PList [PInt 150; PInt 7]) two_targets))
      !! "T1"%string = Some (PInt 150)
  ∧ summary_status (snd (monitor_response "T1" (PList [PInt 150; PInt 7]) two_targets)) = 0.
Proof.
  assert (Hn : pv_name array_pv = "T1"%string) by reflexivity.
  assert (Hr : pv_read array_pv = Ok (PList [PInt 150; PInt 7])) by reflexivity.
  destruct (stored_value_is_extracted_scalar "T1" (PList [PInt 150; PInt 7]) two_targets)
    as (Hm & Ho & Hs & Hx).
  destruct (Hs array_pv Hn Hr) as [Hs1 Hs2].
  rewrite Hx in Hm, Hs1, Hs2.
  split; [exact Hn | split; [exact Hr | split; [exact Hs1 | split; [exact Hs2|]]]].
  split; [exact Hm | vm_compute; reflexivity].
Defined.

(** C7 as stated fails on sequences without a usable first element: the
    empty list is stored whole, it has no first element, and a text is stored
    whole although [val[0]] is its first character. *)
Lemma sequence_stored_whole :
  is_sequence (PList []) = true
  ∧ getitem0 (PList []) = Raise IndexError
  ∧ target_values (snd (monitor_response "T1" (PList []) two_targets)) !! "T1"%string
    = Some (PList [])
  ∧ is_sequence (PStr "ab") = true
  ∧ getitem0 (PStr "ab") = Ok (PStr "a")
  ∧ target_values (snd (monitor_response "T1" (PStr "ab") two_targets)) !! "T1"%string
    = Some (PStr "ab").
Proof. repeat split; vm_compute; reflexivity. Qed.

(** C10.  An empty list, tuple or bytes payload is stored whole as the
    target's value, by the first read and by a subscription event alike,
    whatever value the target had before: the stored value is the payload,
    not [None], and not a scalar. *)
Theorem empty_sequence_is_stored_whole (name : string) (val : pyval) (g : ioc) :
  empty_sequence val = true →
  target_values (snd (monitor_response name val g)) !! name = Some val
  ∧ (∀ p, pv_name p = name → pv_read p = Ok val →
       target_values (snd (startup_pv p g)) !! name = Some val)
  ∧ target_values_get (snd (monitor_response name val g)) name ≠ PNone
  ∧ has_iter (target_values_get (snd (monitor_response name val g)) name) = true
  ∧ is_number (target_values_get (snd (monitor_response name val g)) name) = false.
Proof.
  intros He.
  assert (Hx : extract_scalar val = val)
    by (by destruct val as [| | | | |[|]|[|]|[|]]).
  assert (Hm : target_values (snd (monitor_response name val g)) !! name = Some val).
  { rewrite monitor_response_eq, update_summary_target_values, Hx.
    apply lookup_insert_eq. }
  split; [exact Hm|]. split.
  - intros p <- Hr. rewrite startup_pv_eq, Hr, update_summary_target_values, Hx.
    apply lookup_insert_eq.
  - unfold target_values_get. rewrite Hm. simpl.
    by destruct val as [| | | | |[|]|[|]|[|]].
Qed.

Lemma empty_sequence_is_stored_whole_witness :
  empty_sequence (PList []) = true
  ∧ target_values one_violation !! "T1"%string = Some (PFloat SF5)
  ∧ target_values (snd (monitor_response "T1" (PList []) one_violation)) !! "T1"%string
    = Some (PList [])
  ∧ pv_name empty_pv = "T1"%string
  ∧ pv_read empty_pv = Ok (PList [])
  ∧ target_values (snd (startup_pv empty_pv one_violation)) !! "T1"%string
    = Some (PList []).
Proof.
  assert (He : empty_sequence (PList []) = true) by reflexivity.
  assert (Hn : pv_name empty_pv = "T1"%string) by reflexivity.
  assert (Hr : pv_read empty_pv = Ok (PList [])) by reflexivity.
  destruct (empty_sequence_is_stored_whole "T1" (PList []) one_violation He)
    as (Hm & Hs & _).
  split; [exact He | split; [vm_compute; reflexivity | split; [exact Hm|]]].
  split; [exact Hn | split; [exact Hr | exact (Hs empty_pv Hn Hr)]].
Defined.

(** ** Start-up *)

Lemma computed_status_ext (ov : option Z) (g1 g2 : ioc) :
  same_registry g1 g2 → computed_status ov g1 = computed_status ov g2.
Proof.
  intros (Ht & Hm & Hc & Hv). unfold computed_status, effective_master.
  by rewrite Ht, Hm, (first_alarm_ext g1 g2).
Qed.

Lemma update_summary_same_registry (ov : option Z) (g : ioc) :
  same_registry (snd (_update_summary ov g)) g.
Proof. destruct (update_summary_frame ov g) as (? & ? & ? & ? & _). by repeat split. Qed.

Lemma update_summary_log (ov : option Z) (g : ioc) (x : log_entry) :
  x ∈ log g → x ∈ log (snd (_update_summary ov g)).
Proof.
  intros Hx. rewrite update_summary_eq. cbn zeta. unfold settle.
  destruct (effective_master ov g =? 0).
  - cbn [snd]. destruct (summary_status (count_update_call g) =? 1); simpl; [done|].
    apply elem_of_app. by left.
  - destruct (first_alarm g (target_pvs_list g)) as [[t|]|e]; cbn [snd]; [| |done].
    + destruct (summary_status _ =? 0); simpl; rewrite ?elem_of_app; tauto.
    + destruct (summary_status _ =? 1); simpl; rewrite ?elem_of_app; tauto.
Qed.

Lemma startup_pv_sim (p : pv) (g1 g2 : ioc) :
  same_registry g1 g2 →
  fst (startup_pv p g1) = fst (startup_pv p g2)
  ∧ same_registry (snd (startup_pv p g1)) (snd (startup_pv p g2)).
Proof.
  intros (Ht & Hm & Hc & Hv). rewrite !startup_pv_eq.
  set (h1 := add_task _ _). set (h2 := add_task _ _).
  assert (Hs : same_registry h1 h2).
  { subst h1 h2. destruct (pv_read p); repeat split; simpl; congruence. }
  split.
  - by rewrite !update_summary_fst, (computed_status_ext None h1 h2).
  - destruct (update_summary_same_registry None h1) as (? & ? & ? & ?).
    destruct (update_summary_same_registry None h2) as (? & ? & ? & ?).
    destruct Hs as (? & ? & ? & ?). repeat split; congruence.
Qed.

Lemma startup_pvs_sim (pvs : list pv) (g1 g2 : ioc) :
  same_registry g1 g2 →
  fst (startup_pvs pvs g1) = fst (startup_pvs pvs g2)
  ∧ same_registry (snd (startup_pvs pvs g1)) (snd (startup_pvs pvs g2)).
Proof.
  revert g1 g2. induction pvs as [|p rest IH]; intros g1 g2 Hs; [done|].
  cbn [startup_pvs]. run_py.
  destruct (startup_pv_sim p g1 g2 Hs) as [Hf Hr].
  destruct (startup_pv p g1) as [[[]|e1] h1], (startup_pv p g2) as [[[]|e2] h2];
    cbn [fst snd] in *; try done.
  by apply IH.
Qed.




(** ** Writes to the control points and the deferred recompute *)

Lemma write_field_eq (target : string) (w : field_value) (g : ioc) :
  fst (write_field target w g) = Ok tt
  ∧ update_calls (snd (write_field target w g)) = update_calls g
  ∧ loop_time (snd (write_field target w g)) = loop_time g
  ∧ sleeping (snd (write_field target w g))
    = sleeping g ++ [(loop_time g + check_delay)%nat].
Proof.
  destruct w as [v|f|f]; unfold write_field, store_returned; run_py;
    cbn [field_of pyval_of generic_putter field_value_of fst snd ret];
    try destruct (String.eqb (replace_colon target) "master"); by repeat split.
Qed.

Lemma wake_all (due : list nat) (g : ioc) :
  update_calls (foldl (λ g' _, wake_check_after g') g due)
    = (update_calls g + length due)%nat
  ∧ sleeping (foldl (λ g' _, wake_check_after g') g due) = sleeping g.
Proof.
  revert g. induction due as [|d rest IH]; intros g; [simpl; split; [lia | done]|].
  cbn [foldl]. destruct (IH (wake_check_after g)) as [-> ->].
  unfold wake_check_after.
  destruct (update_summary_frame None g) as (_ & _ & _ & _ & _ & _ & -> & _ & ->).
  split; [simpl; lia | done].
Qed.

Lemma run_until_eq (t : nat) (g : ioc) :
  update_calls (run_until t g)
    = (update_calls g + length (filter (λ d, (d ≤ t)%nat) (sleeping g)))%nat
  ∧ sleeping (run_until t g) = filter (λ d, ¬ (d ≤ t)%nat) (sleeping g).
Proof. unfold run_until. cbn zeta. by destruct (wake_all (filter (λ d, (d ≤ t)%nat) (sleeping g)) (set_loop (t `max` loop_time g) (filter (λ d, ¬ (d ≤ t)%nat) (sleeping g)) g)) as [-> ->]. Qed.

Lemma filter_none_of (P Q : nat → Prop) `{!∀ x, Decision (P x)} (l : list nat) :
  Forall Q l → (∀ d, Q d → ¬ P d) → filter P l = [].
Proof.
  intros Hl HQ. induction Hl as [|d l Hd Hl IH]; [done|].
  rewrite filter_cons_False by (by apply HQ). exact IH.
Qed.

Lemma filter_all_of (P Q : nat → Prop) `{!∀ x, Decision (P x)} (l : list nat) :
  Forall Q l → (∀ d, Q d → P d) → filter P l = l.
Proof.
  intros Hl HQ. induction Hl as [|d l Hd Hl IH]; [done|].
  rewrite filter_cons_True by (by apply HQ). by rewrite IH.
Qed.

(** Recomputes done and recomputes still asleep: a write adds one, the
    passing of time moves them from the second kind to the first. *)
Lemma run_event_balance (ev : loop_event) (g : ioc) :
  (update_calls (run_event ev g) + length (sleeping (run_event ev g)))%nat
  = (update_calls g + length (sleeping g) + (if is_write ev then 1 else 0))%nat.
Proof.
  destruct ev as [t|target w]; cbn [run_event is_write].
  - destruct (run_until_eq t g) as [-> ->].
    pose proof (Permutation_length
                  (filter_app_complement (λ d, (d ≤ t)%nat) (sleeping g))) as H.
    rewrite length_app in H. lia.
  - destruct (write_field_eq target w g) as (_ & -> & _ & ->).
    rewrite length_app. simpl. lia.
Qed.

Lemma run_until_loop_time (t : nat) (g : ioc) :
  loop_time (run_until t g) = (t `max` loop_time g)%nat.
Proof.
  unfold run_until. cbn zeta.
  generalize (filter (λ d, (d ≤ t)%nat) (sleeping g)).
  generalize (filter (λ d, ¬ (d ≤ t)%nat) (sleeping g)). intros later due.
  change (t `max` loop_time g)%nat
    with (loop_time (set_loop (t `max` loop_time g) later g)) at 2.
  generalize (set_loop (t `max` loop_time g) later g). clear g.
  induction due as [|d rest IH]; intros g; [done|].
  cbn [foldl]. rewrite IH. unfold wake_check_after.
  by destruct (update_summary_frame None g) as (_ & _ & _ & _ & _ & _ & _ & -> & _).
Qed.

(** Every sleeper wakes within one delay of the present, and not before one
    delay after [t0], if the clock had reached [t0] when it went to sleep. *)
Lemma run_event_deadlines (t0 : nat) (ev : loop_event) (g : ioc) :
  (t0 ≤ loop_time g)%nat →
  Forall (λ d, (t0 + check_delay ≤ d ≤ loop_time g + check_delay)%nat) (sleeping g) →
  (t0 ≤ loop_time (run_event ev g))%nat
  ∧ Forall (λ d, (t0 + check_delay ≤ d ≤ loop_time (run_event ev g) + check_delay)%nat)
           (sleeping (run_event ev g)).
Proof.
  intros Ht Hd. destruct ev as [t|target w]; cbn [run_event].
  - rewrite run_until_loop_time. destruct (run_until_eq t g) as [_ ->].
    split; [lia|]. apply Forall_forall. intros d [_ Hin]%list_elem_of_filter.
    rewrite Forall_forall in Hd. specialize (Hd d Hin). lia.
  - destruct (write_field_eq target w g) as (_ & _ & -> & ->).
    split; [done|]. apply Forall_app. split; [done|].
    apply Forall_singleton. lia.
Qed.

Lemma run_events_invariant (t0 : nat) (evs : list loop_event) (g : ioc) :
  (t0 ≤ loop_time g)%nat →
  Forall (λ d, (t0 + check_delay ≤ d ≤ loop_time g + check_delay)%nat) (sleeping g) →
  let g1 := run_events evs g in
  (update_calls g1 + length (sleeping g1))%nat
    = (update_calls g + length (sleeping g) + count_writes evs)%nat
  ∧ (t0 ≤ loop_time g1)%nat
  ∧ Forall (λ d, (t0 + check_delay ≤ d ≤ loop_time g1 + check_delay)%nat) (sleeping g1)
  ∧ (Forall (before (t0 + check_delay)) evs → update_calls g1 = update_calls g).
Proof.
  revert g. induction evs as [|ev rest IH]; intros g Ht Hd; cbn zeta.
  { unfold count_writes. simpl. repeat split; try done; lia. }
  destruct (run_event_deadlines t0 ev g Ht Hd) as [Ht' Hd'].
  destruct (IH (run_event ev g) Ht' Hd') as (Hb & Ht1 & Hd1 & Hw).
  change (run_events (ev :: rest) g) with (run_events rest (run_event ev g)).
  pose proof (run_event_balance ev g) as Hb0.
  split; [|split; [done|split; [done|]]].
  - unfold count_writes in *. cbn [List.filter].
    destruct (is_write ev); cbn [length]; lia.
  - intros [Hev Hrest]%Forall_cons. rewrite (Hw Hrest).
    destruct ev as [t|target w]; cbn [run_event before] in *.
    + destruct (run_until_eq t g) as [-> _].
      rewrite (filter_none_of _ _ (sleeping g) Hd); [simpl; lia|].
      intros d Hd0. simpl in Hd0. lia.
    + by destruct (write_field_eq target w g) as (_ & -> & _).
Qed.




(** * Further properties of the code *)

(** ** Attribute names and construction *)

(** X1.  The attribute suffix [target.replace(':', '_')] contains no [':'],
    has the length of the target's name, is left alone by a second
    replacement, and is the name itself when the name has no [':']. *)
Theorem attr_suffix_has_no_colon (s : string) :
  has_colon (replace_colon s) = false
  ∧ replace_colon (replace_colon s) = replace_colon s
  ∧ String.length (replace_colon s) = String.length s
  ∧ (has_colon s = false → replace_colon s = s).
Proof.
  induction s as [|c rest (IH1 & IH2 & IH3 & IH4)]; [done|].
  cbn [replace_colon has_colon String.length].
  destruct (Ascii.eqb c ":") eqn:Ec; cbn [Ascii.eqb orb].
  - repeat split; try done; by rewrite ?IH1, ?IH2, ?IH3.
  - rewrite Ec. cbn [orb]. repeat split; try done; try (by rewrite ?IH2, ?IH3).
    intros H. by rewrite (IH4 H).
Qed.

Lemma attr_suffix_has_no_colon_witness :
  has_colon "T1" = false ∧ replace_colon "T1" = "T1"%string.
Proof.
  assert (H : has_colon "T1" = false) by reflexivity.
  split; [exact H|].
  exact (proj2 (proj2 (proj2 (attr_suffix_has_no_colon "T1"))) H).
Defined.

Lemma foldl_insert_lookup {V : Type} (f : string → string) (v : V)
    (l : list string) (m : gmap string V) (k : string) :
  foldl (λ d t, <[f t := v]> d) m l !! k
  = if decide (k ∈ map f l) then Some v else m !! k.
Proof.
  revert m. induction l as [|t rest IH]; intros m; cbn [foldl map].
  - destruct (decide (k ∈ [])) as [H|_]; [by apply not_elem_of_nil in H | done].
  - rewrite IH. destruct (decide (k ∈ map f rest)) as [Hin|Hnin].
    + rewrite decide_True; [done | by apply list_elem_of_further].
    + destruct (decide (k = f t)) as [->|Hne].
      * rewrite lookup_insert_eq. rewrite decide_True; [done | apply list_elem_of_here].
      * rewrite lookup_insert_ne by done.
        rewrite decide_False; [done|]. by intros [?|?]%elem_of_cons.
Qed.

Lemma create_target_values_lookup (target_pvs : list string) (k : string) :
  target_values (create_monitor_ioc_class target_pvs) !! k
  = if decide (k ∈ target_pvs) then Some PNone else None.
Proof.
  cbn [create_monitor_ioc_class target_values].
  rewrite (foldl_insert_lookup id PNone). by rewrite map_id, lookup_empty.
Qed.

Lemma create_controls_lookup (target_pvs : list string) (k : string) :
  controls (create_monitor_ioc_class target_pvs) !! k
  = if decide (k ∈ map replace_colon target_pvs) then Some default_control else None.
Proof.
  cbn [create_monitor_ioc_class controls].
  by rewrite (foldl_insert_lookup replace_colon default_control), lookup_empty.
Qed.

(** X2.  In a new IOC every listed target has its three control points at
    their defaults (enabled, 0.0, 100.0) and no value, so that it takes no
    part in the evaluation yet; a name that is not listed has no entry in the
    value table; and every control point there is belongs to a listed
    target. *)
Theorem new_ioc_has_defaults (target_pvs : list string) (t : string) :
  (t ∈ target_pvs →
     controls (create_monitor_ioc_class target_pvs) !! replace_colon t
       = Some default_control
     ∧ target_values (create_monitor_ioc_class target_pvs) !! t = Some PNone
     ∧ evaluated (create_monitor_ioc_class target_pvs) t = None)
  ∧ (t ∉ target_pvs → target_values (create_monitor_ioc_class target_pvs) !! t = None)
  ∧ (∀ s c, controls (create_monitor_ioc_class target_pvs) !! s = Some c →
            c = default_control ∧ ∃ t', t' ∈ target_pvs ∧ s = replace_colon t').
Proof.
  pose proof (create_target_values_lookup target_pvs) as Hv.
  pose proof (create_controls_lookup target_pvs) as Hc.
  split; [|split].
  - intros Hin.
    assert (Hc' : controls (create_monitor_ioc_class target_pvs) !! replace_colon t
                  = Some default_control).
    { rewrite Hc, decide_True; [done|]. apply list_elem_of_fmap. by exists t. }
    assert (Hv' : target_values (create_monitor_ioc_class target_pvs) !! t = Some PNone).
    { by rewrite Hv, decide_True. }
    split; [done|]. split; [done|].
    unfold evaluated, target_values_get. rewrite Hc', Hv'. done.
  - intros Hnin. by rewrite Hv, decide_False.
  - intros s c. rewrite Hc. destruct (decide (s ∈ map replace_colon target_pvs))
      as [Hin|]; [|done].
    intros [= <-]. split; [done|].
    apply list_elem_of_fmap in Hin as (t' & -> & Hin). by exists t'.
Qed.

Lemma new_ioc_has_defaults_witness :
  "T2"%string ∈ ["T1"; "T2"]%string
  ∧ controls two_targets !! replace_colon "T2" = Some default_control
  ∧ ("T3"%string ∉ ["T1"; "T2"]%string)
  ∧ target_values two_targets !! "T3"%string = None.
Proof.
  assert (Hin : "T2"%string ∈ ["T1"; "T2"]%string) 
    by (apply list_elem_of_further; apply list_elem_of_here).
  assert (Hnin : "T3"%string ∉ ["T1"; "T2"]%string).
  { intros H. apply elem_of_cons in H as [H|H]; [discriminate|].
    apply elem_of_cons in H as [H|H]; [discriminate|]. by apply not_elem_of_nil in H. }
  split; [exact Hin|]. split.
  - exact (proj1 (proj1 (new_ioc_has_defaults ["T1"; "T2"]%string "T2") Hin)).
  - split; [exact Hnin|].
    exact (proj1 (proj2 (new_ioc_has_defaults ["T1"; "T2"]%string "T3")) Hnin).
Defined.

(** ** The recompute *)

Lemma settle_log (s : Z) (entry : log_entry) (g : ioc) :
  log (settle s entry g) = log g ++ (if summary_status g =? s then [] else [entry]).
Proof.
  unfold settle. destruct (summary_status g =? s); simpl; [|reflexivity].
  by rewrite app_nil_r.
Qed.

Lemma first_alarm_unknown (g : ioc) (targets : list string) :
  (∀ t, t ∈ targets → target_values_get g t = PNone) →
  first_alarm g targets = Ok None.
Proof.
  intros H. apply first_alarm_none. intros t Hin.
  apply excluded_no_alarm. right. by apply H.
Qed.

(** X3.  While no listed target has a value, every recompute completes with
    status 1, whatever the enable flags and limits are; in particular the
    first recompute of a new IOC completes, leaves the status at 1 and writes
    nothing. *)
Theorem unknown_values_are_healthy (ov : option Z) (g : ioc) (target_pvs : list string) :
  ((∀ t, t ∈ target_pvs_list g → target_values_get g t = PNone) →
     fst (_update_summary ov g) = Ok tt
     ∧ summary_status (snd (_update_summary ov g)) = 1)
  ∧ outcome (_update_summary ov (create_monitor_ioc_class target_pvs)) = (Ok tt, 1, []).
Proof.
  assert (Hgen : ∀ g', (∀ t, t ∈ target_pvs_list g' → target_values_get g' t = PNone) →
                       computed_status ov g' = Ok 1).
  { intros g' H. unfold computed_status.
    destruct (effective_master ov g' =? 0); [done|].
    by rewrite (first_alarm_unknown g' _ H). }
  split.
  - intros H. by rewrite update_summary_fst, update_summary_status, (Hgen g H).
  - rewrite outcome_update_summary, Hgen; [done|].
    intros t Hin. unfold target_values_get.
    by rewrite create_target_values_lookup, decide_True.
Qed.

Lemma unknown_values_are_healthy_witness :
  (∀ t, t ∈ target_pvs_list two_targets → target_values_get two_targets t = PNone)
  ∧ fst (_update_summary None two_targets) = Ok tt
  ∧ summary_status (snd (_update_summary None two_targets)) = 1.
Proof.
  assert (H : ∀ t, t ∈ target_pvs_list two_targets → target_values_get two_targets t = PNone).
  { intros t Hin. apply elem_of_cons in Hin as [->|Hin]; [reflexivity|].
    apply elem_of_cons in Hin as [->|Hin]; [reflexivity|].
    by apply not_elem_of_nil in Hin. }
  split; [exact H|].
  exact (proj1 (unknown_values_are_healthy None two_targets []) H).
Defined.

(** X4.  A recompute that follows a recompute changes nothing: it completes
    or raises as the first did, leaves the status where the first put it and
    writes nothing. *)
Theorem recompute_twice_writes_once (ov : option Z) (g : ioc) :
  let g1 := snd (_update_summary ov g) in
  outcome (_update_summary ov g1)
  = (fst (_update_summary ov g), summary_status g1, published g1).
Proof.
  cbn zeta. rewrite outcome_update_summary.
  rewrite (computed_status_ext ov (snd (_update_summary ov g)) g)
    by apply update_summary_same_registry.
  rewrite update_summary_fst. pose proof (update_summary_status ov g) as Hs.
  destruct (computed_status ov g) as [s|e]; [|done].
  rewrite Hs, Z.eqb_refl, app_nil_r. done.
Qed.

(** X5.  The alarm is not latched: whether a recompute completes, and the
    status it then leaves, depend on the targets, the master switch, the
    control points and the values alone, not on the status before, the log,
    the tasks or the clock. *)
Theorem status_depends_on_registry_alone (ov : option Z) (g1 g2 : ioc) :
  same_registry g1 g2 →
  fst (_update_summary ov g1) = fst (_update_summary ov g2)
  ∧ (fst (_update_summary ov g1) = Ok tt →
       summary_status (snd (_update_summary ov g1))
       = summary_status (snd (_update_summary ov g2))).
Proof.
  intros Hs. rewrite !update_summary_fst, !update_summary_status.
  rewrite (computed_status_ext ov g1 g2 Hs).
  by destruct (computed_status ov g2).
Qed.

Lemma status_depends_on_registry_alone_witness :
  same_registry (snd (_update_summary None one_violation)) one_violation
  ∧ summary_status (snd (_update_summary None one_violation)) = 0
  ∧ summary_status one_violation = 1
  ∧ fst (_update_summary None (snd (_update_summary None one_violation)))
    = fst (_update_summary None one_violation).
Proof.
  assert (H : same_registry (snd (_update_summary None one_violation)) one_violation)
    by (repeat split; vm_compute; reflexivity).
  split; [exact H|]. split; [vm_compute; reflexivity|]. split; [reflexivity|].
  exact (proj1 (status_depends_on_registry_alone None _ _ H)).
Defined.

Lemma first_alarm_split (g : ioc) (targets : list string) (t : string) :
  first_alarm g targets = Ok (Some t) →
  ∃ pre post, targets = pre ++ t :: post
              ∧ (∀ t', t' ∈ pre → target_alarm g t' = Ok false)
              ∧ target_alarm g t = Ok true.
Proof.
  induction targets as [|t0 rest IH]; cbn [first_alarm]; [done|].
  destruct (target_alarm g t0) as [[]|e] eqn:E; [| |done].
  - intros [= <-]. exists [], rest. split; [done|]. split; [|done].
    intros t' Hin. by apply not_elem_of_nil in Hin.
  - intros (pre & post & -> & Hpre & Ht)%IH. exists (t0 :: pre), post.
    split; [done|]. split; [|done].
    intros t' [->|Hin]%elem_of_cons; [done | by apply Hpre].
Qed.

(** X6.  When a recompute with the master switch on ends with status 0, it
    has logged exactly one alarm, and that for the first target in the order
    of the configuration that is out of its limits: every target before it
    was passed without alarm, and the targets after it were not looked at. *)
Theorem alarm_names_first_target_in_order (g : ioc) :
  master_enable g ≠ 0 →
  fst (_update_summary None g) = Ok tt →
  summary_status (snd (_update_summary None g)) = 0 →
  ∃ pre t post,
    target_pvs_list g = pre ++ t :: post
    ∧ (∀ t', t' ∈ pre → target_alarm g t' = Ok false)
    ∧ target_alarm g t = Ok true
    ∧ log (snd (_update_summary None g))
      = log g ++ [alarm_entry g t]
              ++ (if summary_status g =? 0 then [] else [InfoUpdatingSummary 0]).
Proof.
  intros Hm%Z.eqb_neq Hok Hs. revert Hok Hs.
  rewrite update_summary_eq. unfold effective_master. cbn zeta. rewrite Hm.
  destruct (first_alarm g (target_pvs_list g)) as [[t|]|e] eqn:E; cbn [fst snd]; [| |done].
  - intros _ _. apply first_alarm_split in E as (pre & post & Hl & Hpre & Ht).
    exists pre, t, post. repeat split; try done.
    rewrite settle_log. simpl. by rewrite <- app_assoc.
  - intros _. by rewrite settle_status.
Qed.

Lemma alarm_names_first_target_in_order_witness :
  master_enable two_violations ≠ 0
  ∧ fst (_update_summary None two_violations) = Ok tt
  ∧ summary_status (snd (_update_summary None two_violations)) = 0
  ∧ ∃ pre t post,
      target_pvs_list two_violations = pre ++ t :: post
      ∧ (∀ t', t' ∈ pre → target_alarm two_violations t' = Ok false)
      ∧ target_alarm two_violations t = Ok true
      ∧ log (snd (_update_summary None two_violations))
        = log two_violations ++ [alarm_entry two_violations t]
            ++ (if summary_status two_violations =? 0 then []
                else [InfoUpdatingSummary 0]).
Proof.
  assert (H1 : master_enable two_violations ≠ 0) by (vm_compute; discriminate).
  assert (H2 : fst (_update_summary None two_violations) = Ok tt) by (vm_compute; reflexivity).
  assert (H3 : summary_status (snd (_update_summary None two_violations)) = 0)
    by (vm_compute; reflexivity).
  split; [exact H1 | split; [exact H2 | split; [exact H3|]]].
  exact (alarm_names_first_target_in_order two_violations H1 H2 H3).
Defined.

(** ** Writes to the control points *)

Lemma write_field_state (target : string) (w : field_value) (g : ioc) :
  write_field target w g
  = (Ok tt,
     store_returned target w
       (ensure_future_check_after
          (add_log (InfoGenericPutter (target ++ field_suffix (field_of w)) (pyval_of w))
                   g))).
Proof. by destruct w. Qed.

Lemma store_returned_frame (target : string) (w : field_value) (g : ioc) :
  controls (store_returned target w g)
    = alter (store_field w) (replace_colon target) (controls g)
  ∧ target_pvs_list (store_returned target w g) = target_pvs_list g
  ∧ target_values (store_returned target w g) = target_values g
  ∧ summary_status (store_returned target w g) = summary_status g
  ∧ published (store_returned target w g) = published g
  ∧ update_calls (store_returned target w g) = update_calls g
  ∧ master_enable (store_returned target w g)
    = match w with
      | VEnable v =>
          if String.eqb (replace_colon target) "master" then v else master_enable g
      | VLow _ | VHigh _ => master_enable g
      end.
Proof.
  unfold store_returned. destruct w as [v|f|f]; cbn zeta;
    try destruct (String.eqb (replace_colon target) "master"); by repeat split.
Qed.

Lemma ca_write_existing (target : string) (w : field_value) (g : ioc) :
  point_owner (target_pvs_list g) (replace_colon target) = Some target →
  ca_write target w g = write_field target w g.
Proof. intros H. unfold ca_write. by rewrite decide_True. Qed.

(** X7.  A write to the channel of an ENABLE, LOW or HIGH point that exists
    runs the putter and stores the value the putter returns: that one field
    of the target's control points holds the written value afterwards, and
    nothing else in the registry has changed, not the two other fields, the
    control points of any other attribute suffix, the values, the list of
    targets or the published status; the master switch changes only when
    the point is the ENABLE of a target named [master], which is the master
    switch.  A write to a name that no property carries changes nothing. *)
Theorem written_field_reads_back (target : string) (w : field_value) (g : ioc) :
  (point_owner (target_pvs_list g) (replace_colon target) = Some target →
     let g' := snd (ca_write target w g) in
     fst (ca_write target w g) = Ok tt
     ∧ controls g' !! replace_colon target
       = store_field w <$> controls g !! replace_colon target
     ∧ (∀ c, match w with
             | VEnable v => store_field w c = {| enable := v; low := low c; high := high c |}
             | VLow f => store_field w c = {| enable := enable c; low := f; high := high c |}
             | VHigh f => store_field w c = {| enable := enable c; low := low c; high := f |}
             end)
     ∧ (∀ s, s ≠ replace_colon target → controls g' !! s = controls g !! s)
     ∧ target_pvs_list g' = target_pvs_list g
     ∧ target_values g' = target_values g
     ∧ summary_status g' = summary_status g
     ∧ published g' = published g
     ∧ master_enable g'
       = match w with
         | VEnable v =>
             if String.eqb (replace_colon target) "master" then v else master_enable g
         | VLow _ | VHigh _ => master_enable g
         end)
  ∧ (point_owner (target_pvs_list g) (replace_colon target) ≠ Some target →
       ca_write target w g = (Raise ConnectionError, g)).
Proof.
  split.
  - intros Hown. cbn zeta. rewrite (ca_write_existing target w g Hown), write_field_state.
    cbn [fst snd].
    set (g0 := ensure_future_check_after _).
    destruct (store_returned_frame target w g0) as (-> & -> & -> & -> & -> & _ & ->).
    split; [done|]. split; [apply lookup_alter_eq|]. split; [by destruct w|].
    split; [intros s Hs; by apply lookup_alter_ne|]. by repeat split.
  - intros Hown. unfold ca_write. by rewrite decide_False.
Qed.

Lemma written_field_reads_back_witness :
  point_owner (target_pvs_list two_targets) (replace_colon "T1") = Some "T1"%string
  ∧ controls (snd (ca_write "T1" (VHigh SF10) two_targets)) !! replace_colon "T1"
    = Some {| enable := 1; low := S754_zero false; high := SF10 |}
  ∧ "T2"%string ≠ replace_colon "T1"
  ∧ controls (snd (ca_write "T1" (VHigh SF10) two_targets)) !! "T2"%string
    = controls two_targets !! "T2"%string
  ∧ point_owner (target_pvs_list two_targets) (replace_colon "T3") ≠ Some "T3"%string
  ∧ ca_write "T3" (VHigh SF10) two_targets = (Raise ConnectionError, two_targets).
Proof.
  assert (H1 : point_owner (target_pvs_list two_targets) (replace_colon "T1")
               = Some "T1"%string) by (vm_compute; reflexivity).
  assert (H2 : "T2"%string ≠ replace_colon "T1") by discriminate.
  assert (H3 : point_owner (target_pvs_list two_targets) (replace_colon "T3")
               ≠ Some "T3"%string) by (vm_compute; discriminate).
  destruct (proj1 (written_field_reads_back "T1" (VHigh SF10) two_targets) H1)
    as (_ & Hr & _ & Ho & _).
  split; [exact H1|]. split.
  - rewrite Hr. vm_compute. reflexivity.
  - split; [exact H2 | split; [exact (Ho "T2"%string H2) | split; [exact H3|]]].
    exact (proj2 (written_field_reads_back "T3" (VHigh SF10) two_targets) H3).
Defined.

(** X8.  Two listed targets whose names differ only in [':'] against ['_']
    have one attribute suffix and one set of control points, which carries
    the name of the one listed last.  A new IOC for the two holds a single
    entry; the channels of the earlier target do not exist, so a write to
    them changes nothing; a write to a channel of the later target changes
    the field the earlier one is evaluated with, and disabling the later
    one disables the earlier one too. *)
Theorem targets_with_one_suffix_share_controls
    (t1 t2 : string) (w : field_value) (g : ioc) :
  replace_colon t1 = replace_colon t2 → t1 ≠ t2 →
  (controls (create_monitor_ioc_class [t1; t2]) = {[ replace_colon t1 := default_control ]}
   ∧ point_owner (target_pvs_list (create_monitor_ioc_class [t1; t2])) (replace_colon t1)
     = Some t2)
  ∧ (point_owner (target_pvs_list g) (replace_colon t2) = Some t2 →
       ca_write t1 w g = (Raise ConnectionError, g)
       ∧ fst (ca_write t2 w g) = Ok tt
       ∧ controls (snd (ca_write t2 w g)) !! replace_colon t1
         = store_field w <$> controls g !! replace_colon t1
       ∧ disabled (snd (ca_write t2 (VEnable 0) g)) t1 = true).
Proof.
  intros Heq Hne. split; [split|].
  - cbn [create_monitor_ioc_class controls foldl]. rewrite <- Heq.
    by rewrite insert_insert_eq, insert_empty.
  - cbn [create_monitor_ioc_class target_pvs_list]. unfold point_owner.
    rewrite filter_cons_True by done. rewrite filter_cons_True by done. done.
  - intros Hown.
    assert (Hctl : ∀ w', controls (snd (ca_write t2 w' g)) !! replace_colon t1
                         = store_field w' <$> controls g !! replace_colon t1).
    { intros w'. rewrite (ca_write_existing t2 w' g Hown), write_field_state. cbn [snd].
      set (g0 := ensure_future_check_after _).
      destruct (store_returned_frame t2 w' g0) as (-> & _). rewrite Heq.
      apply lookup_alter_eq. }
    split; [|split; [|split]].
    + unfold ca_write. rewrite decide_False; [done|]. rewrite Heq, Hown. congruence.
    + by rewrite (ca_write_existing t2 w g Hown), write_field_state.
    + apply Hctl.
    + unfold disabled. rewrite (Hctl (VEnable 0)).
      by destruct (controls g !! replace_colon t1).
Qed.

Lemma targets_with_one_suffix_share_controls_witness :
  replace_colon "A:B" = replace_colon "A_B"
  ∧ "A:B"%string ≠ "A_B"%string
  ∧ point_owner (target_pvs_list (create_monitor_ioc_class ["A:B"; "A_B"]%string))
                (replace_colon "A_B") = Some "A_B"%string
  ∧ ca_write "A:B" (VEnable 0) (create_monitor_ioc_class ["A:B"; "A_B"]%string)
    = (Raise ConnectionError, create_monitor_ioc_class ["A:B"; "A_B"]%string)
  ∧ disabled (snd (ca_write "A_B" (VEnable 0)
                     (create_monitor_ioc_class ["A:B"; "A_B"]%string))) "A:B" = true
  ∧ disabled (create_monitor_ioc_class ["A:B"; "A_B"]%string) "A:B" = false.
Proof.
  assert (H1 : replace_colon "A:B" = replace_colon "A_B") by reflexivity.
  assert (H2 : "A:B"%string ≠ "A_B"%string) by discriminate.
  assert (H3 : point_owner (target_pvs_list (create_monitor_ioc_class ["A:B"; "A_B"]%string))
                 (replace_colon "A_B") = Some "A_B"%string) by (vm_compute; reflexivity).
  destruct (proj2 (targets_with_one_suffix_share_controls
                     "A:B" "A_B" (VEnable 0)
                     (create_monitor_ioc_class ["A:B"; "A_B"]%string) H1 H2) H3)
    as (Hr & _ & _ & Hd).
  split; [exact H1 | split; [exact H2 | split; [exact H3 | split; [exact Hr|]]]].
  split; [exact Hd | vm_compute; reflexivity].
Defined.

Lemma wake_fold_status (due : list nat) (h : ioc) :
  same_registry (foldl (λ g' _, wake_check_after g') h due) h
  ∧ (due ≠ [] →
       summary_status (foldl (λ g' _, wake_check_after g') h due)
       = match computed_status None h with Ok s => s | Raise _ => summary_status h end).
Proof.
  revert h. induction due as [|d rest IH]; intros h; [done|].
  cbn [foldl]. destruct (IH (wake_check_after h)) as [Hreg Hst].
  unfold wake_check_after in *.
  pose proof (update_summary_same_registry None h) as Hreg1.
  pose proof (update_summary_status None h) as Hst1.
  split.
  - destruct Hreg as (?&?&?&?), Hreg1 as (?&?&?&?). repeat split; congruence.
  - intros _. destruct rest as [|d' rest']; [exact Hst1|].
    rewrite Hst by done.
    rewrite (computed_status_ext None _ h Hreg1), Hst1.
    by destruct (computed_status None h).
Qed.

(** X9.  A write to an existing control point changes neither the status nor
    its publications by itself and runs no recompute.  Once the clock has
    reached the delay after the write, the status is the one computed on the
    registry that holds the written field (or has not changed, if that
    recompute raises), whatever other deferred recomputes were pending.  If
    none was pending at the write, nothing is recomputed and the status
    keeps its value until the delay is reached, and exactly one recompute
    has run when it is reached. *)
Theorem deferred_recompute_sees_the_write (target : string) (w : field_value) (g : ioc) :
  point_owner (target_pvs_list g) (replace_colon target) = Some target →
  let g1 := snd (ca_write target w g) in
  (summary_status g1 = summary_status g
   ∧ published g1 = published g
   ∧ update_calls g1 = update_calls g)
  ∧ (∀ T, (loop_time g + check_delay ≤ T)%nat →
          summary_status (run_until T g1)
          = match computed_status None g1 with
            | Ok s => s
            | Raise _ => summary_status g
            end
          ∧ controls (run_until T g1) = controls g1)
  ∧ (sleeping g = [] →
       (∀ t, (t < loop_time g + check_delay)%nat →
             summary_status (run_until t g1) = summary_status g
             ∧ update_calls (run_until t g1) = update_calls g)
       ∧ update_calls (run_until (loop_time g + check_delay) g1) = S (update_calls g)).
Proof.
  intros Hown. cbn zeta. rewrite (ca_write_existing target w g Hown).
  destruct (write_field_eq target w g) as (_ & Hu & Ht & Hsl).
  assert (Hst : summary_status (snd (write_field target w g)) = summary_status g
                ∧ published (snd (write_field target w g)) = published g).
  { rewrite write_field_state. cbn [snd].
    by destruct (store_returned_frame target w
                   (ensure_future_check_after
                      (add_log (InfoGenericPutter (target ++ field_suffix (field_of w))
                                                  (pyval_of w)) g)))
      as (_ & _ & _ & -> & -> & _). }
  destruct Hst as [Hst Hpub].
  set (g1 := snd (write_field target w g)) in *.
  split; [done|]. split.
  - intros T HT. unfold run_until. cbn zeta.
    set (h := set_loop _ _ g1).
    assert (Hreg : same_registry h g1) by done.
    assert (Hdue : filter (λ d, (d ≤ T)%nat) (sleeping g1) ≠ []).
    { rewrite Hsl, filter_app, (filter_cons_True (λ d, (d ≤ T)%nat)) by lia.
      intros [_ H]%app_eq_nil. done. }
    destruct (wake_fold_status (filter (λ d, (d ≤ T)%nat) (sleeping g1)) h) as [Hr Hs].
    rewrite (Hs Hdue), (computed_status_ext None h g1 Hreg).
    change (summary_status h) with (summary_status g1). rewrite Hst.
    split; [done|]. destruct Hr as (_ & _ & -> & _). done.
  - intros Hs. rewrite Hs in Hsl. cbn [app] in Hsl. split.
    + intros t Hlt. unfold run_until. cbn zeta. rewrite Hsl.
      rewrite (filter_cons_False (λ d, (d ≤ t)%nat)) by lia.
      rewrite filter_nil. cbn [foldl set_loop summary_status update_calls]. done.
    + destruct (run_until_eq (loop_time g + check_delay) g1) as [-> _].
      rewrite Hsl, (filter_cons_True (λ d, (d ≤ loop_time g + check_delay)%nat)) by lia.
      rewrite filter_nil, Hu. simpl. lia.
Qed.

Lemma deferred_recompute_sees_the_write_witness :
  point_owner (target_pvs_list one_violation) (replace_colon "T2") = Some "T2"%string
  ∧ (loop_time one_violation + check_delay ≤ 25)%nat
  ∧ summary_status (snd (_update_summary None one_violation)) = 0
  ∧ summary_status
      (run_until 25 (snd (ca_write "T2" (VEnable 0)
                            (snd (ca_write "T1" (VLow SF5) one_violation)))))
    = 1
  ∧ sleeping one_violation = []
  ∧ (9 < loop_time one_violation + check_delay)%nat
  ∧ summary_status (run_until 9 (snd (ca_write "T2" (VEnable 0) one_violation))) = 1.
Proof.
  assert (H1 : point_owner (target_pvs_list one_violation) (replace_colon "T2")
               = Some "T2"%string) by (vm_compute; reflexivity).
  assert (H2 : (loop_time one_violation + check_delay ≤ 25)%nat) by (vm_compute; lia).
  assert (H3 : sleeping one_violation = []) by reflexivity.
  assert (H4 : (9 < loop_time one_violation + check_delay)%nat) by (vm_compute; lia).
  set (g := snd (ca_write "T1" (VLow SF5) one_violation)).
  assert (H1' : point_owner (target_pvs_list g) (replace_colon "T2") = Some "T2"%string)
    by (vm_compute; reflexivity).
  assert (H2' : (loop_time g + check_delay ≤ 25)%nat) by (vm_compute; lia).
  destruct (deferred_recompute_sees_the_write "T2" (VEnable 0) g H1')
    as (_ & Hlate & _).
  destruct (deferred_recompute_sees_the_write "T2" (VEnable 0) one_violation H1)
    as (_ & _ & Hquiet).
  split; [exact H1 | split; [exact H2 | split; [vm_compute; reflexivity|]]].
  split.
  - rewrite (proj1 (Hlate 25%nat H2')). vm_compute. reflexivity.
  - split; [exact H3 | split; [exact H4|]].
    rewrite (proj1 (proj1 (Hquiet H3) 9%nat H4)). reflexivity.
Defined.

(** ** The master switch, off and on *)

Lemma write_master_enable_cases (value : Z) (g : ioc) :
  match computed_status (Some value) g with
  | Ok s =>
      fst (write_master_enable value g) = Ok tt
      ∧ summary_status (snd (write_master_enable value g)) = s
      ∧ master_enable (snd (write_master_enable value g)) = value
  | Raise e =>
      fst (write_master_enable value g) = Raise e
      ∧ summary_status (snd (write_master_enable value g)) = summary_status g
      ∧ master_enable (snd (write_master_enable value g)) = master_enable g
  end
  ∧ same_registry (set_master_enable (master_enable g) (snd (write_master_enable value g)))
                  g.
Proof.
  unfold write_master_enable, master_enable_putter. run_py. cbn beta iota.
  set (gl := add_log (InfoMasterEnableChanged value) g).
  assert (Hc : computed_status (Some value) gl = computed_status (Some value) g).
  { unfold computed_status. cbn [effective_master].
    by rewrite (first_alarm_ext gl g). }
  pose proof (update_summary_fst (Some value) gl) as Hf.
  pose proof (update_summary_status (Some value) gl) as Hs.
  destruct (update_summary_frame (Some value) gl) as (F1 & F2 & F3 & F4 & _).
  rewrite Hc in Hf, Hs.
  destruct (_update_summary (Some value) gl) as [[[]|e] g1]; cbn [fst snd] in *;
    destruct (computed_status (Some value) g); try done.
Qed.

(** X10.  Switching the master off and on again brings the alarm back: after
    the write of 0 the status is 1 and the switch is 0; after the write of a
    value other than 0 that follows, the status is the one computed from the
    registry and the switch holds the value.  When that recompute raises, the
    second write is refused: the switch stays at 0 and the status at 1. *)
Theorem master_off_and_on_again (value : Z) (g : ioc) :
  value ≠ 0 →
  let g1 := snd (write_master_enable 0 g) in
  fst (write_master_enable 0 g) = Ok tt
  ∧ summary_status g1 = 1
  ∧ master_enable g1 = 0
  ∧ match computed_status (Some value) g with
    | Ok s =>
        fst (write_master_enable value g1) = Ok tt
        ∧ summary_status (snd (write_master_enable value g1)) = s
        ∧ master_enable (snd (write_master_enable value g1)) = value
    | Raise e =>
        fst (write_master_enable value g1) = Raise e
        ∧ summary_status (snd (write_master_enable value g1)) = 1
        ∧ master_enable (snd (write_master_enable value g1)) = 0
    end.
Proof.
  intros Hv. cbn zeta.
  destruct (write_master_enable_cases 0 g) as [H0 Hreg].
  unfold computed_status in H0 at 1. cbn [effective_master Z.eqb] in H0.
  destruct H0 as (Hf & Hs & Hm).
  split; [done|]. split; [done|]. split; [done|].
  set (g1 := snd (write_master_enable 0 g)) in *.
  destruct (write_master_enable_cases value g1) as [H1 _].
  assert (Hc : computed_status (Some value) g1 = computed_status (Some value) g).
  { destruct Hreg as (R1 & _ & R3 & R4). unfold computed_status.
    cbn [effective_master]. cbn [set_master_enable target_pvs_list controls target_values]
      in R1, R3, R4.
    by rewrite R1, (first_alarm_ext g1 g). }
  rewrite Hc in H1. rewrite Hs, Hm in H1. exact H1.
Qed.

Lemma master_off_and_on_again_witness :
  1 ≠ 0
  ∧ summary_status (snd (_update_summary None one_violation)) = 0
  ∧ summary_status
      (snd (write_master_enable 0 (snd (_update_summary None one_violation)))) = 1
  ∧ summary_status
      (snd (write_master_enable 1
              (snd (write_master_enable 0 (snd (_update_summary None one_violation))))))
    = 0.
Proof.
  assert (H : 1 ≠ 0) by discriminate.
  destruct (master_off_and_on_again 1 (snd (_update_summary None one_violation)) H)
    as (_ & H1 & _ & H2).
  assert (Hc : computed_status (Some 1) (snd (_update_summary None one_violation)) = Ok 0)
    by (vm_compute; reflexivity).
  rewrite Hc in H2.
  split; [exact H | split; [vm_compute; reflexivity | split; [exact H1 | exact (proj1 (proj2 H2))]]].
Defined.

(** ** The subscription loop *)

Lemma monitor_response_frame (name : string) (val : pyval) (g : ioc) :
  let g' := snd (monitor_response name val g) in
  target_values g' = <[name := extract_scalar val]> (target_values g)
  ∧ target_pvs_list g' = target_pvs_list g
  ∧ master_enable g' = master_enable g
  ∧ controls g' = controls g
  ∧ monitor_tasks g' = monitor_tasks g
  ∧ sleeping g' = sleeping g
  ∧ update_calls g' = S (update_calls g).
Proof.
  cbn zeta. rewrite monitor_response_eq.
  destruct (update_summary_frame None (target_values_set name (extract_scalar val) g))
    as (-> & -> & -> & -> & -> & _ & -> & _ & ->).
  by repeat split.
Qed.

Lemma monitor_responses_app (name : string) (l1 l2 : list pyval) (g : ioc) :
  monitor_responses name (l1 ++ l2) g =
    match monitor_responses name l1 g with
    | (Ok _, g1) => monitor_responses name l2 g1
    | (Raise e, g1) => (Raise e, g1)
    end.
Proof.
  revert g. induction l1 as [|r rest IH]; intros g; [done|].
  cbn [app monitor_responses]. run_py.
  destruct (monitor_response name r g) as [[[]|e] g1]; [apply IH | done].
Qed.

Lemma monitor_responses_frame (name : string) (responses : list pyval) (g : ioc) :
  let g' := snd (monitor_responses name responses g) in
  (∀ t, t ≠ name → target_values g' !! t = target_values g !! t)
  ∧ target_pvs_list g' = target_pvs_list g
  ∧ master_enable g' = master_enable g
  ∧ controls g' = controls g
  ∧ monitor_tasks g' = monitor_tasks g
  ∧ sleeping g' = sleeping g.
Proof.
  revert g. induction responses as [|r rest IH]; intros g; [done|].
  cbn [monitor_responses]. run_py.
  destruct (monitor_response_frame name r g) as (Hv & Ht & Hm & Hc & Hk & Hs & _).
  cbn zeta in *.
  destruct (monitor_response name r g) as [[[]|e] g1]; cbn [fst snd] in *.
  - destruct (IH g1) as (Hv' & -> & -> & -> & -> & ->). cbn zeta in Hv'.
    split; [|done]. intros t Hne. rewrite (Hv' t Hne), Hv. by apply lookup_insert_ne.
  - split; [|done]. intros t Hne. rewrite Hv. by apply lookup_insert_ne.
Qed.

Lemma monitor_loop_eq (p : pv) (g : ioc) :
  _monitor_loop p g =
    let r := monitor_responses (pv_name p) (pv_responses p)
               (add_log (InfoStartingLoop (pv_name p)) g) in
    (Ok tt, if is_ok (fst r) && negb (pv_sub_fails p) then snd r
            else add_log (ErrorMonitorLoopFailed (pv_name p)) (snd r)).
Proof.
  unfold _monitor_loop, try_except. run_py. cbn beta iota zeta.
  destruct (monitor_responses (pv_name p) (pv_responses p)
              (add_log (InfoStartingLoop (pv_name p)) g)) as [[[]|e] g1];
    cbn [fst snd is_ok andb]; [|done].
  by destruct (pv_sub_fails p).
Qed.

(** X11.  [_monitor_loop] never lets an exception out: whether a recompute
    raised on one of the responses or the subscription itself failed, the
    loop ends normally, and in both cases, and only then, the last thing it
    logs is that the loop of this target failed. *)
Theorem monitor_loop_never_raises (p : pv) (g : ioc) :
  let r := monitor_responses (pv_name p) (pv_responses p)
             (add_log (InfoStartingLoop (pv_name p)) g) in
  fst (_monitor_loop p g) = Ok tt
  ∧ log (snd (_monitor_loop p g))
    = log (snd r) ++ (if is_ok (fst r) && negb (pv_sub_fails p) then []
                      else [ErrorMonitorLoopFailed (pv_name p)])
  ∧ target_values (snd (_monitor_loop p g)) = target_values (snd r)
  ∧ summary_status (snd (_monitor_loop p g)) = summary_status (snd r)
  ∧ published (snd (_monitor_loop p g)) = published (snd r).
Proof.
  cbn zeta. rewrite monitor_loop_eq. cbn zeta. cbn [fst snd].
  destruct (is_ok _ && negb (pv_sub_fails p)); repeat split; try done.
  by rewrite app_nil_r.
Qed.

(** X12.  A subscription loop writes the value of its own target and no
    other: the values of all other targets, the control points, the master
    switch, the list of targets, the tasks and the sleeping recomputes are
    after the loop what they were before. *)
Theorem monitor_loop_touches_own_value_only (p : pv) (g : ioc) :
  let g' := snd (_monitor_loop p g) in
  (∀ t, t ≠ pv_name p → target_values g' !! t = target_values g !! t)
  ∧ target_pvs_list g' = target_pvs_list g
  ∧ master_enable g' = master_enable g
  ∧ controls g' = controls g
  ∧ monitor_tasks g' = monitor_tasks g
  ∧ sleeping g' = sleeping g.
Proof.
  cbn zeta. rewrite monitor_loop_eq. cbn zeta. cbn [snd].
  destruct (monitor_responses_frame (pv_name p) (pv_responses p)
              (add_log (InfoStartingLoop (pv_name p)) g)) as (Hv & Ht & Hm & Hc & Hk & Hs).
  cbn zeta in *.
  destruct (is_ok _ && negb (pv_sub_fails p)); by repeat split.
Qed.

Lemma monitor_loop_touches_own_value_only_witness :
  "T2"%string ≠ pv_name late_pv
  ∧ target_values (snd (_monitor_loop late_pv one_violation)) !! "T2"%string
    = target_values one_violation !! "T2"%string.
Proof.
  assert (H : "T2"%string ≠ pv_name late_pv) by discriminate.
  split; [exact H|].
  exact (proj1 (monitor_loop_touches_own_value_only late_pv one_violation) "T2"%string H).
Defined.

Lemma monitor_responses_calls (name : string) (responses : list pyval) (g : ioc) :
  fst (monitor_responses name responses g) = Ok tt →
  update_calls (snd (monitor_responses name responses g))
  = (update_calls g + length responses)%nat.
Proof.
  revert g. induction responses as [|r rest IH]; intros g; [simpl; lia|].
  cbn [monitor_responses]. run_py.
  destruct (monitor_response_frame name r g) as (_ & _ & _ & _ & _ & _ & Hu).
  cbn zeta in Hu.
  destruct (monitor_response name r g) as [[[]|e] g1]; cbn [fst snd] in *; [|done].
  intros Hok. rewrite (IH g1 Hok), Hu. simpl. lia.
Qed.

(** X13.  The first response on which the recompute raises ends the loop for
    good: the value of that response stays stored, the loop logs its failure
    and ends, and the responses after it are neither stored nor evaluated. *)
Theorem monitor_loop_ends_at_first_raise
    (p : pv) (pre post : list pyval) (r : pyval) (e : exn) (g : ioc) :
  pv_responses p = pre ++ r :: post →
  let g0 := add_log (InfoStartingLoop (pv_name p)) g in
  fst (monitor_responses (pv_name p) pre g0) = Ok tt →
  fst (monitor_response (pv_name p) r (snd (monitor_responses (pv_name p) pre g0)))
    = Raise e →
  let g' := snd (_monitor_loop p g) in
  fst (_monitor_loop p g) = Ok tt
  ∧ target_values g' !! pv_name p = Some (extract_scalar r)
  ∧ update_calls g' = S (update_calls g + length pre)
  ∧ last (log g') = Some (ErrorMonitorLoopFailed (pv_name p)).
Proof.
  intros Hr g0 Hpre Hraise. cbn zeta. rewrite monitor_loop_eq. cbn zeta.
  fold g0. rewrite Hr.
  change (pre ++ r :: post) with (pre ++ [r] ++ post).
  rewrite monitor_responses_app.
  pose proof (monitor_responses_calls (pv_name p) pre g0 Hpre) as Hcalls.
  destruct (monitor_responses (pv_name p) pre g0) as [[[]|e1] g1]; cbn [fst snd] in *;
    [|done].
  cbn [app monitor_responses]. run_py.
  destruct (monitor_response_frame (pv_name p) r g1) as (Hv & _ & _ & _ & _ & _ & Hu).
  cbn zeta in *.
  destruct (monitor_response (pv_name p) r g1) as [[[]|e2] g2]; cbn [fst snd] in *;
    [done|].
  cbn [is_ok andb]. split; [done|]. split; [|split].
  - cbn [add_log target_values]. rewrite Hv. apply lookup_insert_eq.
  - cbn [add_log update_calls]. rewrite Hu, Hcalls. done.
  - cbn [add_log log]. apply last_snoc.
Qed.

Lemma monitor_loop_ends_at_first_raise_witness :
  pv_responses (Build_pv "T1" (Ok (PList [PInt 5]))
                         [PList [PInt 7]; PList []; PList [PInt 150]] false)
    = [PList [PInt 7]] ++ PList [] :: [PList [PInt 150]]
  ∧ target_values
      (snd (_monitor_loop
              (Build_pv "T1" (Ok (PList [PInt 5]))
                        [PList [PInt 7]; PList []; PList [PInt 150]] false)
              two_targets)) !! "T1"%string
    = Some (extract_scalar (PList []))
  ∧ summary_status
      (snd (_monitor_loop
              (Build_pv "T1" (Ok (PList [PInt 5]))
                        [PList [PInt 7]; PList []; PList [PInt 150]] false)
              two_targets)) = 1.
Proof.
  set (p := Build_pv "T1" (Ok (PList [PInt 5]))
                     [PList [PInt 7]; PList []; PList [PInt 150]] false).
  assert (H1 : pv_responses p = [PList [PInt 7]] ++ PList [] :: [PList [PInt 150]])
    by reflexivity.
  assert (H2 : fst (monitor_responses (pv_name p) [PList [PInt 7]]
                      (add_log (InfoStartingLoop (pv_name p)) two_targets)) = Ok tt)
    by (vm_compute; reflexivity).
  assert (H3 : fst (monitor_response (pv_name p) (PList [])
                      (snd (monitor_responses (pv_name p) [PList [PInt 7]]
                              (add_log (InfoStartingLoop (pv_name p)) two_targets))))
               = Raise TypeError) by (vm_compute; reflexivity).
  split; [exact H1|]. split.
  - exact (proj1 (proj2 (monitor_loop_ends_at_first_raise p _ _ _ _ two_targets H1 H2 H3))).
  - vm_compute. reflexivity.
Defined.

(** ** Numeric payloads *)

Lemma numeric_registry_spec (g : ioc) :
  numeric_registry g = true ↔
  ∀ t, t ∈ target_pvs_list g →
       is_none (target_values_get g t) || is_number (target_values_get g t) = true.
Proof.
  unfold numeric_registry. rewrite forallb_forall. cbn zeta.
  split; intros H t Hin; apply H; by apply list_elem_of_In.
Qed.

Lemma numeric_registry_ext (g1 g2 : ioc) :
  target_pvs_list g1 = target_pvs_list g2 → target_values g1 = target_values g2 →
  numeric_registry g1 = numeric_registry g2.
Proof.
  intros Ht Hv. unfold numeric_registry, target_values_get. by rewrite Ht, Hv.
Qed.

Lemma numeric_registry_set (name : string) (v : pyval) (g : ioc) :
  numeric_registry g = true → is_none v || is_number v = true →
  numeric_registry (target_values_set name v g) = true.
Proof.
  rewrite !numeric_registry_spec. intros H Hv t Hin.
  unfold target_values_get, target_values_set. cbn [target_values set_target_values].
  destruct (decide (t = name)) as [->|Hne].
  - by rewrite lookup_insert_eq.
  - rewrite lookup_insert_ne by done. by apply H.
Qed.

Lemma numeric_registry_computes (ov : option Z) (g : ioc) :
  numeric_registry g = true → ∃ s, computed_status ov g = Ok s.
Proof.
  intros Hn. unfold computed_status.
  destruct (effective_master ov g =? 0); [by exists 1|].
  destruct (numeric_registry_no_raise g Hn) as [a ->]. by eexists.
Qed.

Lemma numeric_registry_update_summary (ov : option Z) (g : ioc) :
  numeric_registry g = true →
  fst (_update_summary ov g) = Ok tt
  ∧ numeric_registry (snd (_update_summary ov g)) = true.
Proof.
  intros Hn. destruct (numeric_registry_computes ov g Hn) as [s Hs].
  rewrite update_summary_fst, Hs. split; [done|].
  destruct (update_summary_frame ov g) as (Ht & _ & _ & Hv & _).
  by rewrite (numeric_registry_ext _ g Ht Hv).
Qed.

Lemma monitor_response_numeric (name : string) (val : pyval) (g : ioc) :
  numeric_registry g = true → numeric_payload val = true →
  fst (monitor_response name val g) = Ok tt
  ∧ numeric_registry (snd (monitor_response name val g)) = true.
Proof.
  intros Hn Hp. rewrite monitor_response_eq.
  apply numeric_registry_update_summary. by apply numeric_registry_set.
Qed.

(** After a recompute with the cached master value that completed, the
    published status is the status of the registry. *)
Lemma update_summary_consistent (g : ioc) :
  fst (_update_summary None g) = Ok tt →
  computed_status None (snd (_update_summary None g))
  = Ok (summary_status (snd (_update_summary None g))).
Proof.
  rewrite update_summary_fst, update_summary_status.
  rewrite (computed_status_ext None (snd (_update_summary None g)) g)
    by apply update_summary_same_registry.
  by destruct (computed_status None g).
Qed.

Lemma monitor_responses_numeric (name : string) (responses : list pyval) (g : ioc) :
  numeric_registry g = true →
  Forall (λ val, numeric_payload val = true) responses →
  let r := monitor_responses name responses g in
  fst r = Ok tt
  ∧ numeric_registry (snd r) = true
  ∧ target_values (snd r) !! name
    = match last responses with
      | Some val => Some (extract_scalar val)
      | None => target_values g !! name
      end
  ∧ (responses ≠ [] → computed_status None (snd r) = Ok (summary_status (snd r))).
Proof.
  revert g. induction responses as [|val rest IH]; intros g Hn Hall; [done|].
  apply Forall_cons in Hall as [Hval Hrest]. cbn zeta.
  cbn [monitor_responses]. run_py.
  destruct (monitor_response_numeric name val g Hn Hval) as [Hok Hn1].
  destruct (monitor_response_frame name val g) as (Hv & _).
  pose proof (update_summary_consistent (target_values_set name (extract_scalar val) g))
    as Hcons.
  rewrite <- monitor_response_eq in Hcons. specialize (Hcons Hok). cbn zeta in Hv.
  destruct (monitor_response name val g) as [[[]|e] g1]; cbn [fst snd] in *; [|done].
  destruct (IH g1 Hn1 Hrest) as (Hf & Hn2 & Hl & Hc). cbn zeta in *.
  split; [done|]. split; [done|]. split.
  - rewrite Hl, last_cons, Hv, lookup_insert_eq. by destruct (last rest).
  - intros _. destruct rest as [|val' rest']; [exact Hcons | by apply Hc].
Qed.



(** ** Start-up as a whole *)

Lemma startup_pv_frame (p : pv) (g : ioc) :
  monitor_tasks (snd (startup_pv p g)) = monitor_tasks g ++ [pv_name p]
  ∧ update_calls (snd (startup_pv p g)) = S (update_calls g)
  ∧ target_pvs_list (snd (startup_pv p g)) = target_pvs_list g
  ∧ monitored_pvs (snd (startup_pv p g)) = monitored_pvs g
  ∧ target_values (snd (startup_pv p g))
    = match pv_read p with
      | Ok val => <[pv_name p := extract_scalar val]> (target_values g)
      | Raise _ => target_values g
      end.
Proof.
  rewrite startup_pv_eq.
  set (h := add_task _ _).
  destruct (update_summary_frame None h) as (-> & _ & _ & -> & -> & -> & _ & _ & ->).
  subst h. by destruct (pv_read p).
Qed.

Lemma startup_pv_numeric (p : pv) (g : ioc) :
  numeric_registry g = true → numeric_read p = true →
  fst (startup_pv p g) = Ok tt ∧ numeric_registry (snd (startup_pv p g)) = true.
Proof.
  intros Hn Hr. rewrite startup_pv_eq. apply numeric_registry_update_summary.
  unfold numeric_read in Hr. destruct (pv_read p) as [val|e].
  - set (g0 := add_log (InfoSubscribing (pv_name p)) g).
    assert (Hn0 : numeric_registry g0 = true) by (by rewrite (numeric_registry_ext g0 g)).
    exact (numeric_registry_set (pv_name p) (extract_scalar val) g0 Hn0 Hr).
  - exact Hn.
Qed.

Lemma startup_pvs_app (l1 l2 : list pv) (g : ioc) :
  startup_pvs (l1 ++ l2) g =
    match startup_pvs l1 g with
    | (Ok _, g1) => startup_pvs l2 g1
    | (Raise e, g1) => (Raise e, g1)
    end.
Proof.
  revert g. induction l1 as [|p rest IH]; intros g; [done|].
  cbn [app startup_pvs]. run_py.
  destruct (startup_pv p g) as [[[]|e] g1]; [apply IH | done].
Qed.

Lemma startup_pvs_ok (pvs : list pv) (g : ioc) :
  fst (startup_pvs pvs g) = Ok tt →
  monitor_tasks (snd (startup_pvs pvs g)) = monitor_tasks g ++ map pv_name pvs
  ∧ update_calls (snd (startup_pvs pvs g)) = (update_calls g + length pvs)%nat
  ∧ monitored_pvs (snd (startup_pvs pvs g)) = monitored_pvs g.
Proof.
  revert g. induction pvs as [|p rest IH]; intros g.
  { intros _. simpl. split; [by rewrite app_nil_r | split; [lia | done]]. }
  cbn [startup_pvs]. run_py.
  destruct (startup_pv_frame p g) as (Ht & Hu & _ & Hm & _).
  destruct (startup_pv p g) as [[[]|e] g1]; cbn [fst snd] in *; [|done].
  intros Hok. destruct (IH g1 Hok) as (-> & -> & ->).
  rewrite Ht, Hu, Hm. cbn [map length]. rewrite <- app_assoc.
  split; [done | split; [lia | done]].
Qed.

Lemma startup_pvs_numeric (pvs : list pv) (g : ioc) :
  numeric_registry g = true → Forall (λ p, numeric_read p = true) pvs →
  fst (startup_pvs pvs g) = Ok tt ∧ numeric_registry (snd (startup_pvs pvs g)) = true.
Proof.
  revert g. induction pvs as [|p rest IH]; intros g Hn Hall; [done|].
  apply Forall_cons in Hall as [Hp Hrest]. cbn [startup_pvs]. run_py.
  destruct (startup_pv_numeric p g Hn Hp) as [Hok Hn1].
  destruct (startup_pv p g) as [[[]|e] g1]; cbn [fst snd] in *; [|done].
  by apply IH.
Qed.

Lemma master_enable_startup_eq (get_pvs : list string → res (list pv)) (g : ioc) :
  master_enable_startup get_pvs g =
    let g0 := add_log (InfoConnecting (target_pvs_list g)) (add_log InfoStartingClient g) in
    match get_pvs (target_pvs_list g) with
    | Ok pvs => startup_pvs pvs (set_monitored_pvs pvs g0)
    | Raise _ => (Ok tt, add_log ErrorFailedGetPVs g0)
    end.
Proof.
  unfold master_enable_startup. run_py. cbn beta iota zeta.
  change (target_pvs_list (add_log InfoStartingClient g)) with (target_pvs_list g).
  by destruct (get_pvs (target_pvs_list g)).
Qed.



(** X16.  The recompute at the end of each round of start-up is not guarded:
    when it raises for one handle, start-up ends there with that exception.
    The handles before it and the handle itself have their loops, the
    handles after it are neither read nor subscribed to. *)
Theorem startup_stops_at_first_raise
    (get_pvs : list string → res (list pv)) (pre post : list pv) (p : pv)
    (e : exn) (g : ioc) :
  get_pvs (target_pvs_list g) = Ok (pre ++ p :: post) →
  let g0 := set_monitored_pvs (pre ++ p :: post)
              (add_log (InfoConnecting (target_pvs_list g))
                       (add_log InfoStartingClient g)) in
  fst (startup_pvs pre g0) = Ok tt →
  fst (startup_pv p (snd (startup_pvs pre g0))) = Raise e →
  let g' := snd (master_enable_startup get_pvs g) in
  fst (master_enable_startup get_pvs g) = Raise e
  ∧ monitor_tasks g' = monitor_tasks g ++ map pv_name pre ++ [pv_name p]
  ∧ update_calls g' = S (update_calls g + length pre)
  ∧ g' = snd (startup_pv p (snd (startup_pvs pre g0))).
Proof.
  intros Hget g0 Hpre Hraise. cbn zeta.
  rewrite master_enable_startup_eq, Hget. cbn zeta. fold g0.
  assert (Htasks : monitor_tasks g0 = monitor_tasks g) by done.
  assert (Hcalls : update_calls g0 = update_calls g) by done.
  clearbody g0.
  change (pre ++ p :: post) with (pre ++ [p] ++ post).
  rewrite startup_pvs_app.
  destruct (startup_pvs_ok pre g0 Hpre) as (Ht & Hu & _).
  destruct (startup_pvs pre g0) as [[[]|e1] g1]; cbn [fst snd] in *; [|done].
  cbn [app startup_pvs]. run_py.
  destruct (startup_pv_frame p g1) as (Ht1 & Hu1 & _).
  destruct (startup_pv p g1) as [[[]|e2] g2]; cbn [fst snd] in *; [done|].
  split; [done|]. split; [|split; [|done]].
  - by rewrite Ht1, Ht, Htasks, <- app_assoc.
  - by rewrite Hu1, Hu, Hcalls.
Qed.

Lemma startup_stops_at_first_raise_witness :
  (λ _, Ok ([late_pv] ++ text_pv :: [lively_pv])) (target_pvs_list two_targets)
    = Ok ([late_pv] ++ text_pv :: [lively_pv])
  ∧ fst (master_enable_startup (λ _, Ok ([late_pv] ++ text_pv :: [lively_pv])) two_targets)
    = Raise TypeError
  ∧ monitor_tasks
      (snd (master_enable_startup (λ _, Ok ([late_pv] ++ text_pv :: [lively_pv]))
              two_targets))
    = monitor_tasks two_targets ++ map pv_name [late_pv] ++ [pv_name text_pv].
Proof.
  set (get_pvs := λ _ : list string, Ok ([late_pv] ++ text_pv :: [lively_pv])).
  assert (H1 : get_pvs (target_pvs_list two_targets)
               = Ok ([late_pv] ++ text_pv :: [lively_pv])) by reflexivity.
  assert (H2 : fst (startup_pvs [late_pv]
                      (set_monitored_pvs ([late_pv] ++ text_pv :: [lively_pv])
                         (add_log (InfoConnecting (target_pvs_list two_targets))
                            (add_log InfoStartingClient two_targets)))) = Ok tt)
    by (vm_compute; reflexivity).
  assert (H3 : fst (startup_pv text_pv
                      (snd (startup_pvs [late_pv]
                              (set_monitored_pvs ([late_pv] ++ text_pv :: [lively_pv])
                                 (add_log (InfoConnecting (target_pvs_list two_targets))
                                    (add_log InfoStartingClient two_targets))))))
               = Raise TypeError) by (vm_compute; reflexivity).
  destruct (startup_stops_at_first_raise get_pvs [late_pv] [lively_pv] text_pv
              TypeError two_targets H1 H2 H3) as (Hf & Ht & _).
  split; [exact H1 | split; [exact Hf | exact Ht]].
Defined.

(** ** The configuration and the start of the program *)

Lemma names_of_texts (names : list string) : names_of (SStr <$> names) = Some names.
Proof.
  induction names as [|s rest IH]; [done|].
  cbn [fmap list_fmap names_of]. fold (@fmap list _ _ _ SStr rest). by rewrite IH.
Qed.

Lemma names_of_some (items : list scalar) (names : list string) :
  names_of items = Some names → items = SStr <$> names.
Proof.
  revert names. induction items as [|[| | |s] rest IH]; intros names; cbn [names_of];
    try done.
  - by intros [= <-].
  - destruct (names_of rest) as [l|]; [|done]. intros [= <-]. by rewrite (IH l).
Qed.

Lemma names_of_none (items : list scalar) :
  names_of items = None → ∃ item, item ∈ items ∧ ∀ s, item ≠ SStr s.
Proof.
  induction items as [|item rest IH]; [done|].
  destruct item as [| b | n | s]; cbn [names_of].
  - intros _. exists SNull. split; [apply list_elem_of_here | done].
  - intros _. exists (SBool b). split; [apply list_elem_of_here | done].
  - intros _. exists (SInt n). split; [apply list_elem_of_here | done].
  - destruct (names_of rest) as [l|]; [done|]. intros _.
    destruct (IH eq_refl) as (item & Hin & Hne). exists item.
    split; [by apply list_elem_of_further | done].
Qed.

Lemma empty_target_list_is_healthy (ov : option Z) (g : ioc) :
  target_pvs_list g = [] → computed_status ov g = Ok 1.
Proof.
  intros Ht. unfold computed_status. rewrite Ht.
  by destruct (effective_master ov g =? 0).
Qed.

(** X17.  A configuration whose mapping has no [target_pvs], or has it
    empty, starts an IOC without targets; and an IOC without targets has
    status 1 after every recompute, whatever its master switch, its control
    points and its table of values hold. *)
Theorem config_without_targets_serves_idle_ioc (config : list (string * yaml)) :
  dict_get config "target_pvs" (YSeq []) = YSeq [] →
  main (Document (YMap config)) = Serving (create_monitor_ioc_class [])
  ∧ ∀ ov g, target_pvs_list g = [] →
            fst (_update_summary ov g) = Ok tt
            ∧ summary_status (snd (_update_summary ov g)) = 1.
Proof.
  intros Hget. split.
  - unfold main, load_config. by rewrite Hget.
  - intros ov g Ht.
    by rewrite update_summary_fst, update_summary_status,
         (empty_target_list_is_healthy ov g Ht).
Qed.

Lemma config_without_targets_serves_idle_ioc_witness :
  dict_get [("pvs"%string, YSeq [SStr "T1"; SStr "T2"])] "target_pvs" (YSeq []) = YSeq []
  ∧ main pvs_only = Serving (create_monitor_ioc_class []).
Proof.
  assert (H : dict_get [("pvs"%string, YSeq [SStr "T1"; SStr "T2"])] "target_pvs" (YSeq [])
              = YSeq []) by reflexivity.
  split; [exact H|].
  exact (proj1 (config_without_targets_serves_idle_ioc _ H)).
Defined.

(** X18.  A configuration whose [target_pvs] is a list of names starts an
    IOC whose targets are these names in the order of the file, with the
    master switch on, status 1, and for every name the control points at
    their defaults and no value. *)
Theorem configured_names_become_targets
    (config : list (string * yaml)) (names : list string) :
  dict_get config "target_pvs" (YSeq []) = YSeq (SStr <$> names) →
  ∃ g, main (Document (YMap config)) = Serving g
       ∧ target_pvs_list g = names
       ∧ master_enable g = 1
       ∧ summary_status g = 1
       ∧ ∀ t, t ∈ names →
              controls g !! replace_colon t = Some default_control
              ∧ target_values_get g t = PNone.
Proof.
  intros Hget. exists (create_monitor_ioc_class names). split.
  - unfold main, load_config. rewrite Hget. cbn [py_iter]. by rewrite names_of_texts.
  - repeat split; try done.
    + rewrite create_controls_lookup, decide_True; [done|].
      apply list_elem_of_fmap. by exists t.
    + unfold target_values_get. by rewrite create_target_values_lookup, decide_True.
Qed.

Lemma configured_names_become_targets_witness :
  dict_get [("target_pvs"%string, YSeq [SStr "T1"; SStr "T2"])] "target_pvs" (YSeq [])
    = YSeq (SStr <$> ["T1"; "T2"]%string)
  ∧ ∃ g, main with_targets = Serving g
         ∧ target_pvs_list g = ["T1"; "T2"]%string
         ∧ master_enable g = 1
         ∧ summary_status g = 1
         ∧ ∀ t, t ∈ ["T1"; "T2"]%string →
                controls g !! replace_colon t = Some default_control
                ∧ target_values_get g t = PNone.
Proof.
  assert (H : dict_get [("target_pvs"%string, YSeq [SStr "T1"; SStr "T2"])]
                "target_pvs" (YSeq []) = YSeq (SStr <$> ["T1"; "T2"]%string))
    by reflexivity.
  split; [exact H|].
  exact (configured_names_become_targets _ _ H).
Defined.

(** X19.  The start of the program ends in one of three ways.  It exits,
    always with status 1, exactly when the file cannot be opened or parsed
    or the document is not a mapping.  It dies with an exception when the
    document is a mapping but what it holds under [target_pvs] cannot be
    walked through (a null, a boolean, a number) or holds an item that is
    not a text.  Otherwise it serves a new IOC for the names found. *)
Theorem main_ends_in_one_of_three_ways (file : parsed) :
  match main file with
  | Exits status =>
      status = 1
      ∧ (file = Unreadable ∨ ∃ doc, file = Document doc ∧ ∀ config, doc ≠ YMap config)
  | Dies e =>
      ∃ config, file = Document (YMap config)
        ∧ match e with
          | NotIterable => py_iter (dict_get config "target_pvs" (YSeq [])) = None
          | NoAttribute =>
              ∃ items item,
                py_iter (dict_get config "target_pvs" (YSeq [])) = Some items
                ∧ item ∈ items ∧ ∀ s, item ≠ SStr s
          | ReadError => False
          end
  | Serving g =>
      ∃ config names,
        file = Document (YMap config)
        ∧ py_iter (dict_get config "target_pvs" (YSeq [])) = Some (SStr <$> names)
        ∧ g = create_monitor_ioc_class names
  end.
Proof.
  destruct file as [[v|items|config]|]; cbn [main load_config].
  - split; [done|]. right. by exists (YScalar v).
  - split; [done|]. right. by exists (YSeq items).
  - destruct (py_iter (dict_get config "target_pvs" (YSeq []))) as [items|] eqn:Hi.
    + destruct (names_of items) as [names|] eqn:Hn.
      * exists config, names. by rewrite Hi, (names_of_some items names Hn).
      * exists config. split; [done|].
        destruct (names_of_none items Hn) as (item & Hin & Hne). by exists items, item.
    + exists config. by split.
  - split; [done | by left].
Qed.

(** ** The display generator *)

(** X20.  The display has one row per configured channel, in the order of
    the configuration, between a header of five lines and the closing tag:
    row [i] is the widget of the [i]-th channel, placed at [y = i * 40].  The
    rows do not overlap, and the declared height of the display holds all of
    them with 50 units to spare. *)
Theorem display_rows_are_stacked (pv_list : list scalar) :
  length (xml_content pv_list) = (length pv_list + 6)%nat
  ∧ (∀ i pv_name, pv_list !! i = Some pv_name →
                  xml_content pv_list !! (5 + i)%nat = Some (widget i pv_name))
  ∧ last (xml_content pv_list) = Some "</display>"%string
  ∧ (∀ i j, (i < j < length pv_list)%nat →
            (y_pos i + ROW_HEIGHT ≤ y_pos j)%nat
            ∧ (y_pos j + ROW_HEIGHT + 50 ≤ display_height (length pv_list))%nat).
Proof.
  unfold xml_content. split; [|split; [|split]].
  - rewrite !length_app, length_imap. cbn [header length]. lia.
  - intros i pv_name Hi.
    rewrite lookup_app_r by (cbn [header length]; lia).
    cbn [header length]. replace (5 + i - 5)%nat with i by lia.
    rewrite lookup_app_l by (rewrite length_imap; by apply lookup_lt_Some in Hi).
    by rewrite list_lookup_imap, Hi.
  - by rewrite app_assoc, last_snoc.
  - intros i j [Hij Hj]. unfold y_pos, display_height, ROW_HEIGHT. lia.
Qed.

Lemma display_rows_are_stacked_witness :
  [SStr "T1"; SStr "T2"] !! 1%nat = Some (SStr "T2")
  ∧ xml_content [SStr "T1"; SStr "T2"] !! (5 + 1)%nat = Some (widget 1 (SStr "T2"))
  ∧ (0 < 1 < length [SStr "T1"; SStr "T2"])%nat
  ∧ (y_pos 0 + ROW_HEIGHT ≤ y_pos 1)%nat.
Proof.
  assert (H1 : [SStr "T1"; SStr "T2"] !! 1%nat = Some (SStr "T2")) by reflexivity.
  assert (H2 : (0 < 1 < length [SStr "T1"; SStr "T2"])%nat) by (simpl; lia).
  destruct (display_rows_are_stacked [SStr "T1"; SStr "T2"]) as (_ & Hrow & _ & Hgeo).
  split; [exact H1 | split; [exact (Hrow 1%nat _ H1) | split; [exact H2|]]].
  exact (proj1 (Hgeo 0%nat 1%nat H2)).
Defined.

(** X21.  The generator writes the whole display or nothing.  The one
    failure it handles is the missing configuration file: it prints the
    error and writes nothing.  A file that cannot be read or parsed, a
    document that is not a mapping and a [pvs] entry that cannot be walked
    through end the run with an exception before anything is written.  In
    every other case [main.bob] is the joined [xml_content] of the channels
    and the message gives their number. *)
Theorem generator_writes_all_or_nothing (file_exists : bool) (file : parsed) :
  match generate_bob file_exists file with
  | Finished None printed =>
      file_exists = false ∧ printed = "Error: config.yaml not found."%string
  | Finished (Some main_bob) printed =>
      file_exists = true
      ∧ ∃ config items,
          file = Document (YMap config)
          ∧ py_iter (dict_get config "pvs" (YSeq [])) = Some items
          ∧ main_bob = join nl (xml_content items)
          ∧ printed = ("Successfully generated main.bob with "
                       ++ pretty (length items) ++ " rows.")%string
  | BobDies e =>
      file_exists = true
      ∧ match e with
        | ReadError => file = Unreadable
        | NoAttribute => ∃ doc, file = Document doc ∧ ∀ config, doc ≠ YMap config
        | NotIterable =>
            ∃ config, file = Document (YMap config)
                      ∧ py_iter (dict_get config "pvs" (YSeq [])) = None
        end
  end.
Proof.
  unfold generate_bob. destruct file_exists; cbn [negb]; [|done].
  destruct file as [[v|items|config]|].
  - split; [done|]. by exists (YScalar v).
  - split; [done|]. by exists (YSeq items).
  - cbn zeta. destruct (py_iter (dict_get config "pvs" (YSeq []))) as [items|] eqn:Hi.
    + split; [done|]. exists config, items. by rewrite Hi.
    + split; [done|]. exists config. by split.
  - done.
Qed.

(** X22.  The two programs read different keys of the configuration: the
    generator takes its channels from [pvs], the IOC its targets from
    [target_pvs].  From a mapping that names channels under [pvs] only, the
    generator lays out a row for each, while the IOC starts without any
    target. *)
Theorem generator_and_ioc_read_different_keys
    (config : list (string * yaml)) (items : list scalar) :
  dict_get config "pvs" (YSeq []) = YSeq items →
  dict_get config "target_pvs" (YSeq []) = YSeq [] →
  generate_bob true (Document (YMap config))
    = Finished (Some (join nl (xml_content items)))
               ("Successfully generated main.bob with "
                ++ pretty (length items) ++ " rows.")%string
  ∧ length (xml_content items) = (length items + 6)%nat
  ∧ main (Document (YMap config)) = Serving (create_monitor_ioc_class [])
  ∧ target_pvs_list (create_monitor_ioc_class []) = [].
Proof.
  intros Hp Ht. split; [|split; [|split]].
  - unfold generate_bob. cbn [negb]. cbn zeta. by rewrite Hp.
  - unfold xml_content. rewrite !length_app, length_imap. cbn [header length]. lia.
  - unfold main, load_config. by rewrite Ht.
  - done.
Qed.

Lemma generator_and_ioc_read_different_keys_witness :
  dict_get [("pvs"%string, YSeq [SStr "T1"; SStr "T2"])] "pvs" (YSeq [])
    = YSeq [SStr "T1"; SStr "T2"]
  ∧ dict_get [("pvs"%string, YSeq [SStr "T1"; SStr "T2"])] "target_pvs" (YSeq [])
    = YSeq []
  ∧ generate_bob true pvs_only
    = Finished (Some (join nl (xml_content [SStr "T1"; SStr "T2"])))
               ("Successfully generated main.bob with "
                ++ pretty (length [SStr "T1"; SStr "T2"]) ++ " rows.")%string
  ∧ main pvs_only = Serving (create_monitor_ioc_class []).
Proof.
  assert (H1 : dict_get [("pvs"%string, YSeq [SStr "T1"; SStr "T2"])] "pvs" (YSeq [])
               = YSeq [SStr "T1"; SStr "T2"]) by reflexivity.
  assert (H2 : dict_get [("pvs"%string, YSeq [SStr "T1"; SStr "T2"])] "target_pvs"
                 (YSeq []) = YSeq []) by reflexivity.
  destruct (generator_and_ioc_read_different_keys _ _ H1 H2) as (Hg & _ & Hm & _).
  split; [exact H1 | split; [exact H2 | split; [exact Hg | exact Hm]]].
Defined.

(** ** What every run keeps *)

Lemma write_master_enable_eq (value : Z) (g : ioc) :
  write_master_enable value g =
    match _update_summary (Some value) (add_log (InfoMasterEnableChanged value) g) with
    | (Ok _, g1) => (Ok tt, set_master_enable value g1)
    | (Raise e, g1) => (Raise e, g1)
    end.
Proof.
  unfold write_master_enable, master_enable_putter. run_py. cbn beta iota.
  by destruct (_update_summary (Some value) (add_log (InfoMasterEnableChanged value) g))
    as [[[]|e] g1].
Qed.

Section Preserved.

(** A property of the state that the recompute and the plain updates of
    the state keep. *)
Variable P : ioc → Prop.
Hypothesis P_update_summary : ∀ ov g, P g → P (snd (_update_summary ov g)).
Hypothesis P_add_log : ∀ e g, P g → P (add_log e g).
Hypothesis P_add_task : ∀ name g, P g → P (add_task name g).
Hypothesis P_set_monitored_pvs : ∀ pvs g, P g → P (set_monitored_pvs pvs g).
Hypothesis P_set_loop : ∀ t sl g, P g → P (set_loop t sl g).
Hypothesis P_set_master_enable : ∀ v g, P g → P (set_master_enable v g).
Hypothesis P_target_values_set : ∀ name v g, P g → P (target_values_set name v g).
Hypothesis P_alter_controls :
  ∀ f k g, P g → P (set_controls (alter f k (controls g)) g).

Lemma monitor_response_preserves (name : string) (val : pyval) (g : ioc) :
  P g → P (snd (monitor_response name val g)).
Proof. intros H. rewrite monitor_response_eq. auto. Qed.

Lemma monitor_responses_preserves (name : string) (responses : list pyval) (g : ioc) :
  P g → P (snd (monitor_responses name responses g)).
Proof.
  revert g. induction responses as [|val rest IH]; intros g H; [done|].
  cbn [monitor_responses]. run_py.
  pose proof (monitor_response_preserves name val g H) as H1.
  destruct (monitor_response name val g) as [[[]|e] g1]; cbn [snd] in *; auto.
Qed.

Lemma monitor_loop_preserves (p : pv) (g : ioc) : P g → P (snd (_monitor_loop p g)).
Proof.
  intros H. rewrite monitor_loop_eq. cbn zeta. cbn [snd].
  pose proof (monitor_responses_preserves (pv_name p) (pv_responses p) _
                (P_add_log (InfoStartingLoop (pv_name p)) g H)) as H1.
  destruct (is_ok _ && negb (pv_sub_fails p)); auto.
Qed.

Lemma startup_pv_preserves (p : pv) (g : ioc) : P g → P (snd (startup_pv p g)).
Proof.
  intros H. rewrite startup_pv_eq. apply P_update_summary, P_add_task.
  destruct (pv_read p); auto.
Qed.

Lemma startup_pvs_preserves (pvs : list pv) (g : ioc) : P g → P (snd (startup_pvs pvs g)).
Proof.
  revert g. induction pvs as [|p rest IH]; intros g H; [done|].
  cbn [startup_pvs]. run_py.
  pose proof (startup_pv_preserves p g H) as H1.
  destruct (startup_pv p g) as [[[]|e] g1]; cbn [snd] in *; auto.
Qed.

Lemma master_enable_startup_preserves (get_pvs : list string → res (list pv)) (g : ioc) :
  P g → P (snd (master_enable_startup get_pvs g)).
Proof.
  intros H. rewrite master_enable_startup_eq. cbn zeta.
  destruct (get_pvs (target_pvs_list g)) as [pvs|e]; cbn [snd]; [|auto].
  apply startup_pvs_preserves. auto.
Qed.

Lemma write_master_enable_preserves (value : Z) (g : ioc) :
  P g → P (snd (write_master_enable value g)).
Proof.
  intros H. rewrite write_master_enable_eq.
  pose proof (P_update_summary (Some value) _
                (P_add_log (InfoMasterEnableChanged value) g H)) as H1.
  destruct (_update_summary (Some value) (add_log (InfoMasterEnableChanged value) g))
    as [[[]|e] g1]; cbn [snd] in *; auto.
Qed.

Lemma write_field_preserves (target : string) (w : field_value) (g : ioc) :
  P g → P (snd (write_field target w g)).
Proof.
  intros H. rewrite write_field_state. cbn [snd]. unfold store_returned.
  set (g0 := ensure_future_check_after _).
  assert (H0 : P g0) by (unfold g0, ensure_future_check_after; auto).
  destruct w as [v|f|f]; cbn zeta;
    try destruct (String.eqb (replace_colon target) "master"); auto.
Qed.

Lemma ca_write_preserves (target : string) (w : field_value) (g : ioc) :
  P g → P (snd (ca_write target w g)).
Proof.
  intros H. unfold ca_write. case_decide; [by apply write_field_preserves | done].
Qed.

Lemma run_until_preserves (t : nat) (g : ioc) : P g → P (run_until t g).
Proof.
  intros H. unfold run_until. cbn zeta.
  generalize (filter (λ d, (d ≤ t)%nat) (sleeping g)). intros due.
  assert (H0 : P (set_loop (t `max` loop_time g)
                    (filter (λ d, ¬ (d ≤ t)%nat) (sleeping g)) g)) by auto.
  revert H0. generalize (set_loop (t `max` loop_time g)
                           (filter (λ d, ¬ (d ≤ t)%nat) (sleeping g)) g).
  induction due as [|d rest IH]; intros h Hh; [done|].
  cbn [foldl]. apply IH. unfold wake_check_after. auto.
Qed.

Lemma apply_op_preserves (o : ioc_op) (g : ioc) : P g → P (apply_op o g).
Proof.
  destruct o; cbn [apply_op]; intros H;
    auto using master_enable_startup_preserves, monitor_loop_preserves,
      monitor_response_preserves, write_master_enable_preserves,
      ca_write_preserves, run_until_preserves.
Qed.

Lemma apply_ops_preserves (ops : list ioc_op) (g : ioc) : P g → P (apply_ops ops g).
Proof.
  revert g. induction ops as [|o rest IH]; intros g H; [done|].
  apply IH. by apply apply_op_preserves.
Qed.

End Preserved.

Lemma alternates_snoc (prev : Z) (l : list Z) (x : Z) :
  alternates prev (l ++ [x]) = alternates prev l && (x =? 1 - default prev (last l)).
Proof.
  revert prev. induction l as [|y rest IH]; intros prev.
  - cbn. by rewrite andb_true_r.
  - cbn [app alternates]. rewrite IH, last_cons.
    rewrite <- andb_assoc. by destruct (last rest).
Qed.

Lemma alternates_last (prev : Z) (l : list Z) :
  prev = 0 ∨ prev = 1 → alternates prev l = true →
  default prev (last l) = 0 ∨ default prev (last l) = 1.
Proof.
  revert prev. induction l as [|y rest IH]; intros prev Hp; [done|].
  cbn [alternates]. intros [Hy%Z.eqb_eq Hr]%andb_prop.
  rewrite last_cons. assert (Hy' : y = 0 ∨ y = 1) by lia.
  specialize (IH y Hy' Hr). by destruct (last rest).
Qed.

Lemma alternates_lookup (prev : Z) (l : list Z) (i : nat) (x : Z) :
  prev = 0 ∨ prev = 1 → alternates prev l = true → l !! i = Some x →
  x = if Nat.even i then 1 - prev else prev.
Proof.
  revert prev i. induction l as [|y rest IH]; intros prev i Hp; [done|].
  cbn [alternates]. intros [Hy%Z.eqb_eq Hr]%andb_prop.
  destruct i as [|i].
  - intros [= <-]. done.
  - cbn [lookup list_lookup]. intros Hi.
    assert (Hy' : y = 0 ∨ y = 1) by lia.
    rewrite (IH y i Hy' Hr Hi). rewrite Nat.even_succ, <- Nat.negb_even.
    destruct (Nat.even i); cbn [negb]; lia.
Qed.

Lemma published_alternates_update_summary (ov : option Z) (g : ioc) :
  published_alternates g → published_alternates (snd (_update_summary ov g)).
Proof.
  intros [Ha Hs]. unfold published_alternates.
  rewrite update_summary_status, update_summary_published.
  destruct (computed_status ov g) as [s|e] eqn:Hc; [|done].
  destruct (summary_status g =? s) eqn:E.
  - apply Z.eqb_eq in E. rewrite app_nil_r. split; [done | congruence].
  - apply Z.eqb_neq in E. rewrite alternates_snoc, last_snoc, Ha. split; [|done].
    apply computed_status_01 in Hc.
    pose proof (alternates_last 1 (published g) (or_intror eq_refl) Ha) as Hl.
    rewrite <- Hs in *. cbn [andb]. apply Z.eqb_eq. lia.
Qed.

(** X23.  Whatever happens to an IOC after its creation (start-up,
    subscription loops and responses, writes to the master switch and to the
    control points, the passing of time, recomputes), the writes to the
    status alternate: the first is a 0, every later one is the other value
    than the one before, so that no value is ever published twice in a row;
    and the status is always the value written last, or the initial 1. *)
Theorem published_status_alternates (target_pvs : list string) (ops : list ioc_op) :
  let g := apply_ops ops (create_monitor_ioc_class target_pvs) in
  (∀ i x, published g !! i = Some x → x = if Nat.even i then 0 else 1)
  ∧ summary_status g = default 1 (last (published g))
  ∧ (summary_status g = 0 ∨ summary_status g = 1).
Proof.
  cbn zeta.
  assert (H : published_alternates (apply_ops ops (create_monitor_ioc_class target_pvs))).
  { apply apply_ops_preserves; try done.
    intros ov g. apply published_alternates_update_summary. }
  destruct H as [Ha Hs]. split; [|split; [done|]].
  - intros i x Hi.
    by rewrite (alternates_lookup 1 _ i x (or_intror eq_refl) Ha Hi).
  - rewrite Hs. by apply alternates_last; [right|].
Qed.

Lemma published_status_alternates_witness :
  published scenario_C !! 1%nat = Some 1
  ∧ 1 = (if Nat.even 1 then 0 else 1)
  ∧ published (apply_ops [OpResponse "T2" (PList [PInt 150]); OpWriteMaster 0;
                          OpWriteMaster 1; OpWriteField "T2" (VEnable 0); OpAdvance 10]
                         two_targets)
    = [0; 1; 0; 1].
Proof.
  split; [vm_compute; reflexivity|]. split.
  - apply (proj1 (published_status_alternates ["T1"; "T2"]%string
                    [OpResponse "T2" (PList [PInt 150]); OpWriteMaster 0]) 1%nat 1).
    vm_compute. reflexivity.
  - vm_compute. reflexivity.
Defined.

(** X24.  The targets and their control points are fixed when the IOC is
    created: nothing that happens afterwards adds or removes a target or a
    control point. *)
Theorem membership_is_fixed (ops : list ioc_op) (g : ioc) :
  target_pvs_list (apply_ops ops g) = target_pvs_list g
  ∧ dom (controls (apply_ops ops g)) = dom (controls g).
Proof.
  change (same_membership g (apply_ops ops g)).
  apply apply_ops_preserves; try done.
  - intros ov g' [Ht Hd]. destruct (update_summary_frame ov g') as (Ht' & _ & Hc' & _).
    split; [congruence | by rewrite Hc'].
  - intros f k g' [Ht Hd]. split; [done|].
    cbn [set_controls controls]. by rewrite dom_alter_L.
Qed.
